(** * xfields.ibs._kicks: a shallow embedding and its verified properties

    The development embeds [xfields/ibs/_kicks.py]: the three coefficient
    value classes, the longitudinal [line_density] estimator and the
    [IBSKick] / [IBSSimpleKick] element classes.  Python floats and NumPy
    [float64] arrays are IEEE 754 binary64 numbers, embedded with the
    axiom-free [spec_float] of the Standard Library; Python integers are
    [Z]; Python strings are lists of Unicode code points; Python exceptions
    are an error type; attribute reads and writes go through a small
    state-and-error monad.  The memory of the machine is not part of the
    embedding: arrays are lists of any length. *)

From Stdlib Require Import ZArith List Bool String Ascii Lia DecimalString.
From Stdlib Require Import Floats.SpecFloat.
Import ListNotations.
Open Scope Z_scope.

Set Implicit Arguments.

(* ================================================================== *)
(** * Binary64 arithmetic *)
(* ================================================================== *)

Module F64.

Definition prec : Z := 53.
Definition emax : Z := 1024.

(** A Python [float] / NumPy [float64]: sign, mantissa and exponent, the
    two zeros, the two infinities and NaN. *)
Definition t : Type := spec_float.

Definition add : t -> t -> t := SFadd prec emax.
Definition sub : t -> t -> t := SFsub prec emax.
Definition mul : t -> t -> t := SFmul prec emax.
Definition div : t -> t -> t := SFdiv prec emax.
Definition sqrt : t -> t := SFsqrt prec emax.

Definition ltb (x y : t) : bool := SFltb x y.
Definition leb (x y : t) : bool := SFleb x y.
Definition gtb (x y : t) : bool := SFltb y x.
Definition geb (x y : t) : bool := SFleb y x.
Definition eqb (x y : t) : bool := SFeqb x y.

Definition nan : t := S754_nan.
Definition zero : t := S754_zero false.
Definition inf : t := S754_infinity false.

Definition is_nan (x : t) : bool :=
  match x with S754_nan => true | _ => false end.

Definition is_zero (x : t) : bool :=
  match x with S754_zero _ => true | _ => false end.

(** [math.isfinite]: neither an infinity nor NaN. *)
Definition is_finite (x : t) : bool :=
  match x with
  | S754_zero _ | S754_finite _ _ _ => true
  | S754_infinity _ | S754_nan => false
  end.

(** Conversion of a Python [int] to binary64, rounding to nearest even. *)
Definition of_Z (z : Z) : t := binary_normalize prec emax z 0 false.

(** The literals of the source: [1e-7] is the binary64 number
    [0x1.ad7f29abcaf48p-24], and [2.0]. *)
Definition lit_1em7 : t := S754_finite false 7555786372591432 (-76).
Definition lit_2 : t := S754_finite false 4503599627370496 (-51).
Definition one : t := S754_finite false 4503599627370496 (-52).

End F64.

Definition f64 : Type := F64.t.

Declare Scope f64_scope.
Delimit Scope f64_scope with f64.
Infix "+" := F64.add : f64_scope.
Infix "-" := F64.sub : f64_scope.
Infix "*" := F64.mul : f64_scope.
Infix "/" := F64.div : f64_scope.

(* ================================================================== *)
(** * Python exceptions, results, and the effect monad *)
(* ================================================================== *)

(** The exceptions the module, the conversions it makes and the array
    library it calls can raise. *)
Inductive exception : Type :=
| AssertionError
| NotImplementedError (msg : string)
| ValueError (msg : string)
| OverflowError (msg : string).

Inductive result (A : Type) : Type :=
| Ok (a : A)
| Raise (e : exception).

Arguments Ok {A} a.
Arguments Raise {A} e.

Definition is_ok {A} (r : result A) : bool :=
  match r with Ok _ => true | Raise _ => false end.

Definition and_then {A B} (r : result A) (k : A -> result B) : result B :=
  match r with
  | Ok a => k a
  | Raise e => Raise e
  end.

(** The conversion of a Python [int] to a [float], as the division of a
    float by an [int] makes it: correctly rounded, and an [OverflowError]
    when the integer is beyond the finite range of binary64 (it would round
    to an infinity). *)
Definition float_of_int (n : Z) : result f64 :=
  match F64.of_Z n with
  | S754_infinity _ => Raise (OverflowError "int too large to convert to float")
  | v => Ok v
  end.

(** [x / n] for a NumPy [float64] and a Python [int].  A zero divisor raises
    nothing: NumPy warns and returns an infinity or NaN. *)
Definition truediv_int (x : f64) (n : Z) : result f64 :=
  and_then (float_of_int n) (fun d => Ok (x / d)%f64).

(** [str(n)] for an [int]. *)
Definition str_of_int (n : Z) : string :=
  NilZero.string_of_int (Z.to_int n).

(** A computation over a mutable store [S]: it returns a value or raises,
    and hands back the store as it left it (a raised exception does not roll
    back earlier writes). *)
Definition Py (S A : Type) : Type := S -> result A * S.

Definition ret {S A} (a : A) : Py S A := fun s => (Ok a, s).

Definition raise {S A} (e : exception) : Py S A := fun s => (Raise e, s).

Definition bind {S A B} (m : Py S A) (k : A -> Py S B) : Py S B :=
  fun s =>
    match m s with
    | (Ok a, s') => k a s'
    | (Raise e, s') => (Raise e, s')
    end.

(** Reading and replacing the store. *)
Definition get {S} : Py S S := fun s => (Ok s, s).
Definition put {S} (s : S) : Py S unit := fun _ => (Ok tt, s).

(** A call into pure library code: it may raise, it touches no store. *)
Definition call {S A} (r : result A) : Py S A := fun s => (r, s).

(** Running a computation over a component [T] of the store [S]. *)
Definition zoom {S T A} (proj : S -> T) (upd : T -> S -> S) (m : Py T A) : Py S A :=
  fun s => let (r, t') := m (proj s) in (r, upd t' s).

Declare Scope py_scope.
Delimit Scope py_scope with py.
Notation "x <- m ;; k" := (bind m (fun x => k))
  (at level 61, m at next level, right associativity) : py_scope.
Notation "' pat <- m ;; k" := (bind m (fun x => match x with pat => k end))
  (at level 61, pat pattern, m at next level, right associativity) : py_scope.
Notation "m ;; k" := (bind m (fun _ => k))
  (at level 61, right associativity) : py_scope.

(** The value a computation returns from a store, and the store it leaves. *)
Definition returned {S A} (m : Py S A) (s : S) : result A := fst (m s).
Definition final_store {S A} (m : Py S A) (s : S) : S := snd (m s).

(* ================================================================== *)
(** * The array library behind [particles._context.nplike_lib] *)
(* ================================================================== *)

(** ** Array helpers: slices, element-wise operations, masks *)

(** [a[:-1]] is [removelast a] and [a[1:]] is [tl a]. *)

(** Element-wise binary operation on two arrays of equal length. *)
Fixpoint map2 {A B C} (f : A -> B -> C) (a : list A) (b : list B) : list C :=
  match a, b with
  | x :: a', y :: b' => f x y :: map2 f a' b'
  | _, _ => []
  end.

(** [a[mask]] for a boolean mask of the same length: the selected elements,
    in order, in a fresh array. *)
Fixpoint getitem_mask {A} (a : list A) (mask : list bool) : list A :=
  match a, mask with
  | x :: a', b :: mask' =>
      if b then x :: getitem_mask a' mask' else getitem_mask a' mask'
  | _, _ => []
  end.

(** [a[-1] = v] on a non-empty array. *)
Fixpoint set_last {A} (a : list A) (v : A) : list A :=
  match a with
  | [] => []
  | [_] => [v]
  | x :: a' => x :: set_last a' v
  end.

(** [arange(0, num)]. *)
Definition arange (num : Z) : list Z :=
  map Z.of_nat (seq 0 (Z.to_nat num)).

Definition count {A} (p : A -> bool) (a : list A) : Z :=
  Z.of_nat (List.length (filter p a)).

Definition Zsum (a : list Z) : Z := fold_left Z.add a 0.

(** The leading run of elements that satisfy [p]. *)
Fixpoint take_while {A} (p : A -> bool) (a : list A) : list A :=
  match a with
  | [] => []
  | x :: a' => if p x then x :: take_while p a' else []
  end.

(** ** NumPy on binary64 arrays *)

Module numpy.

Local Open Scope f64_scope.

(** One step of the [np.max] / [np.min] reduction: the accumulator [in1]
    stays when it is NaN or strictly beats the next element [in2]; so NaN
    propagates, and of two equal values (the two zeros) the later one is
    kept. *)
Definition maximum (in1 in2 : f64) : f64 :=
  if F64.gtb in1 in2 || F64.is_nan in1 then in1 else in2.

Definition minimum (in1 in2 : f64) : f64 :=
  if F64.ltb in1 in2 || F64.is_nan in1 then in1 else in2.

(** [np.max(a)]: a reduction without identity. *)
Definition max (a : list f64) : result f64 :=
  match a with
  | [] => Raise (ValueError
      "zero-size array to reduction operation maximum which has no identity")
  | x :: a' => Ok (fold_left maximum a' x)
  end.

Definition min (a : list f64) : result f64 :=
  match a with
  | [] => Raise (ValueError
      "zero-size array to reduction operation minimum which has no identity")
  | x :: a' => Ok (fold_left minimum a' x)
  end.

(** [np.linspace(start, stop, num=num, dtype=np.float64)] with the default
    [endpoint=True].  The array is built whatever its length: what NumPy
    does when the memory does not hold [num] floats is outside the
    embedding, and the statements about returned arrays bound the number of
    slices. *)
Definition linspace (start stop : f64) (num : Z) : result (list f64) :=
  if num <? 0 then
    Raise (ValueError ("Number of samples, " ++ str_of_int num
                       ++ ", must be non-negative."))
  else
    let div := (num - 1)%Z in
    let delta := stop - start in
    let y := map F64.of_Z (arange num) in
    let y :=
      if 0 <? div then
        let step := delta / F64.of_Z div in
        if F64.eqb step F64.zero then
          map (fun v => (v / F64.of_Z div) * delta) y
        else
          map (fun v => v * step) y
      else
        map (fun v => v * delta) y in
    let y := map (fun v => v + start) y in
    Ok (if 1 <? num then set_last y stop else y).

(** The order of [np.sort] and [np.searchsorted]: NaN sorts last. *)
Definition sort_lt (a b : f64) : bool :=
  F64.ltb a b || (F64.is_nan b && negb (F64.is_nan a)).

(** [np.sort(a).searchsorted(v, side)]: the insertion index of [v] in the
    sorted array is the number of elements before it. *)
Definition searchsorted_left (a : list f64) (v : f64) : Z :=
  count (fun x => sort_lt x v) a.

Definition searchsorted_right (a : list f64) (v : f64) : Z :=
  count (fun x => negb (sort_lt v x)) a.

(** [_search_sorted_inclusive]: left insertion for all edges but the last,
    right insertion for the last, so that the last bin is closed. *)
Definition _search_sorted_inclusive (a v : list f64) : list Z :=
  map (searchsorted_left a) (removelast v)
  ++ match v with
     | [] => []
     | _ => [searchsorted_right a (last v F64.nan)]
     end.

(** [np.diff] on integer and on float arrays: [a[1:] - a[:-1]]. *)
Definition diff_int (a : list Z) : list Z := map2 Z.sub (tl a) (removelast a).
Definition diff (a : list f64) : list f64 := map2 F64.sub (tl a) (removelast a).

(** [np.any(bin_edges[:-1] > bin_edges[1:])]: the check [np.histogram]
    makes on an array of bin edges. *)
Definition edges_decrease (bins : list f64) : bool :=
  existsb (fun b => b) (map2 F64.gtb (removelast bins) (tl bins)).

(** [np.histogram(a, bins, density=density)] for an array of bin edges:
    the counts (as floats) or the density, and the edges. *)
Definition histogram (a bins : list f64) (density : bool)
  : result (list f64 * list f64) :=
  if edges_decrease bins then
    Raise (ValueError "`bins` must increase monotonically, when an array")
  else
    let cum_n := _search_sorted_inclusive a bins in
    let n := diff_int cum_n in
    if density then
      let db := diff bins in
      Ok (map2 (fun ni dbi => (F64.of_Z ni / dbi) / F64.of_Z (Zsum n)) n db,
          bins)
    else
      Ok (map F64.of_Z n, bins).

(** The index search of [np.interp]: [len] when the key is above the last
    sample point, [-1] when it is below the first, else one less than the
    first index from 1 on whose sample point exceeds the key.  (NumPy scans
    linearly up to four points and bisects from the previous index beyond;
    on non-decreasing sample points both find this index.) *)
Definition linear_search (key : f64) (arr : list f64) : Z :=
  if F64.gtb key (last arr F64.nan) then Z.of_nat (List.length arr)
  else if F64.ltb key (hd F64.nan arr) then (-1)%Z
  else Z.of_nat (List.length (take_while (fun e => F64.geb key e) (tl arr))).

(** One value of [np.interp(x, xp, fp)]. *)
Definition interp1 (dx dy : list f64) (x_val : f64) : f64 :=
  let lenxp := Z.of_nat (List.length dx) in
  let lval := hd F64.nan dy in
  let rval := last dy F64.nan in
  let at_ (a : list f64) (j : Z) := nth (Z.to_nat j) a F64.nan in
  if (lenxp =? 1)%Z then
    if F64.ltb x_val (at_ dx 0%Z) then lval
    else if F64.gtb x_val (at_ dx 0%Z) then rval
    else at_ dy 0%Z
  else if F64.is_nan x_val then x_val
  else
    let j := linear_search x_val dx in
    if (j =? -1)%Z then lval
    else if (j =? lenxp)%Z then rval
    else if (j =? lenxp - 1)%Z then at_ dy j
    else if F64.eqb (at_ dx j) x_val then at_ dy j
    else
      let slope := (at_ dy (j + 1)%Z - at_ dy j) / (at_ dx (j + 1)%Z - at_ dx j) in
      let r := slope * (x_val - at_ dx j) + at_ dy j in
      if F64.is_nan r then
        let r' := slope * (x_val - at_ dx (j + 1)%Z) + at_ dy (j + 1)%Z in
        if F64.is_nan r' && F64.eqb (at_ dy j) (at_ dy (j + 1)%Z)
        then at_ dy j else r'
      else r.

(** [np.interp(x, xp, fp)]. *)
Definition interp (x xp fp : list f64) : result (list f64) :=
  match xp with
  | [] => Raise (ValueError "array of sample points is empty")
  | _ =>
      if negb (List.length fp =? List.length xp)%nat then
        Raise (ValueError "fp and xp are not of the same length.")
      else Ok (map (interp1 xp fp) x)
  end.

End numpy.

(** The array namespace a context provides ([numpy], [cupy], ...): the five
    operations [line_density] calls. *)
Record NpLike : Type := {
  np_max : list f64 -> result f64;
  np_min : list f64 -> result f64;
  np_linspace : f64 -> f64 -> Z -> result (list f64);
  np_histogram : list f64 -> list f64 -> bool -> result (list f64 * list f64);
  np_interp : list f64 -> list f64 -> list f64 -> result (list f64)
}.

Definition numpy_lib : NpLike := {|
  np_max := numpy.max;
  np_min := numpy.min;
  np_linspace := numpy.linspace;
  np_histogram := numpy.histogram;
  np_interp := numpy.interp
|}.

(** An [xobjects] context.  The CPU context, whose array library is NumPy, is
    the one embedded here. *)
Inductive Context : Type := ContextCpu.

Definition nplike_lib (c : Context) : NpLike :=
  match c with ContextCpu => numpy_lib end.

(* ================================================================== *)
(** * Coefficient value classes *)
(* ================================================================== *)

(** Each class has three [xo.Float64] fields, is initialised from three
    floats with [xoinitialize], and converts to a tuple in field order. *)

Module DiffusionCoefficients.
Record t : Type := xoinitialize { Dx : f64; Dy : f64; Dz : f64 }.

Definition __init__ (Dx Dy Dz : f64) : t := xoinitialize Dx Dy Dz.

Definition as_tuple (self : t) : f64 * f64 * f64 :=
  (Dx self, Dy self, Dz self).
End DiffusionCoefficients.

Module FrictionCoefficients.
Record t : Type := xoinitialize { Fx : f64; Fy : f64; Fz : f64 }.

Definition __init__ (Fx Fy Fz : f64) : t := xoinitialize Fx Fy Fz.

Definition as_tuple (self : t) : f64 * f64 * f64 :=
  (Fx self, Fy self, Fz self).
End FrictionCoefficients.

Module IBSKickCoefficients.
Record t : Type := xoinitialize { Kx : f64; Ky : f64; Kz : f64 }.

Definition __init__ (Kx Ky Kz : f64) : t := xoinitialize Kx Ky Kz.

Definition as_tuple (self : t) : f64 * f64 * f64 :=
  (Kx self, Ky self, Kz self).
End IBSKickCoefficients.

(* ================================================================== *)
(** * Particles and the line density *)
(* ================================================================== *)

(** One macro-particle of an [xtrack.Particles] ensemble: the transverse and
    longitudinal coordinates and momenta, and the state flag (positive for
    an active particle). *)
Record Particle : Type := {
  x : f64; px : f64;
  y : f64; py : f64;
  zeta : f64; delta : f64;
  state : Z
}.

(** An [xtrack.Particles] object: its context and its particles.  Every
    per-particle array of the object has the length of the ensemble. *)
Record Particles : Type := {
  _context : Context;
  rows : list Particle
}.

(** An active particle has a positive state flag. *)
Definition is_active (p : Particle) : bool := state p >? 0.

(** The arrays [particles.zeta] and [particles.state]. *)
Definition Particles_zeta (particles : Particles) : list f64 :=
  map zeta (rows particles).

Definition Particles_state (particles : Particles) : list Z :=
  map state (rows particles).

(** The longitudinal coordinates of the active particles, in ensemble
    order. *)
Definition active_zeta (particles : Particles) : list f64 :=
  map zeta (filter is_active (rows particles)).

(** [line_density(particles, num_slices)], run on the store that holds the
    [particles] object. *)
Definition line_density (num_slices : Z) : Py Particles (list f64) :=
  (particles <- get ;;
   let nplike := nplike_lib (_context particles) in
   let zeta := getitem_mask (Particles_zeta particles)
                 (map (fun s => s >? 0) (Particles_state particles)) in
   z_cut_head <- call (np_max nplike zeta) ;;
   z_cut_tail <- call (np_min nplike zeta) ;;
   slice_width <- call (truediv_int (z_cut_head - z_cut_tail)%f64 num_slices) ;;
   bin_edges <- call (np_linspace nplike
                        (z_cut_tail - F64.lit_1em7 * slice_width)%f64
                        (z_cut_head + F64.lit_1em7 * slice_width)%f64
                        (num_slices + 1)) ;;
   let bin_centers :=
     map (fun s => (s / F64.lit_2)%f64)
         (map2 F64.add (removelast bin_edges) (tl bin_edges)) in
   '(counts_normed, bin_edges) <- call (np_histogram nplike zeta bin_edges true) ;;
   call (np_interp nplike zeta bin_centers counts_normed))%py.

(** The binning step of [line_density] on its own (the statements from the
    cuts to the bin centers): the head and tail cuts, the slice width, the
    bin edges and the bin centers it computes from the active coordinates. *)
Record Bins : Type := {
  z_cut_head : f64;
  z_cut_tail : f64;
  slice_width : f64;
  bin_edges : list f64;
  bin_centers : list f64
}.

Definition line_density_bins (nplike : NpLike) (zeta : list f64)
    (num_slices : Z) : result Bins :=
  and_then (np_max nplike zeta) (fun z_cut_head =>
  and_then (np_min nplike zeta) (fun z_cut_tail =>
  and_then (truediv_int (z_cut_head - z_cut_tail)%f64 num_slices)
           (fun slice_width =>
  and_then (np_linspace nplike
              (z_cut_tail - F64.lit_1em7 * slice_width)%f64
              (z_cut_head + F64.lit_1em7 * slice_width)%f64
              (num_slices + 1)) (fun bin_edges =>
  let bin_centers :=
    map (fun s => (s / F64.lit_2)%f64)
        (map2 F64.add (removelast bin_edges) (tl bin_edges)) in
  Ok {| z_cut_head := z_cut_head; z_cut_tail := z_cut_tail;
        slice_width := slice_width;
        bin_edges := bin_edges; bin_centers := bin_centers |})))).

(** The weights [line_density] computes from the active coordinates: the
    binning step, the normalised histogram and the interpolation. *)
Definition weights (nplike : NpLike) (zeta : list f64) (num_slices : Z)
  : result (list f64) :=
  and_then (line_density_bins nplike zeta num_slices) (fun bins =>
  and_then (np_histogram nplike zeta (bin_edges bins) true) (fun hist =>
  np_interp nplike zeta (bin_centers bins) (fst hist))).

(** The largest number of slices for which the properties below state that
    [line_density] returns an array: the arrays it builds then hold at most
    [2^20 + 1] floats (8 MiB), which the memory of any machine that runs the
    module holds, and the number converts to a float exactly. *)
Definition max_slices : Z := 1048576.

(** Particles for examples: a particle at rest on the axis at a given
    longitudinal coordinate, with a given state flag. *)
Definition particle_at (z : f64) (s : Z) : Particle :=
  {| x := F64.zero; px := F64.zero; y := F64.zero; py := F64.zero;
     zeta := z; delta := F64.zero; state := s |}.

Definition ensemble (ps : list Particle) : Particles :=
  {| _context := ContextCpu; rows := ps |}.

(* ================================================================== *)
(** * The kick elements *)
(* ================================================================== *)

(** ** Strings *)

(** A Python [str]: the sequence of its Unicode code points. *)
Definition str : Type := list N.

(** The [str] of an ASCII literal. *)
Definition u (s : string) : str := map N_of_ascii (list_ascii_of_string s).

Definition str_eqb (s t : str) : bool :=
  if list_eq_dec N.eq_dec s t then true else false.

(** The code points [str.lower] maps into ASCII, or to more than one code
    point: the capitals [A]..[Z], U+212A KELVIN SIGN, whose lowercase is
    [k], and U+0130 LATIN CAPITAL LETTER I WITH DOT ABOVE, whose lowercase
    is [i] followed by U+0307 COMBINING DOT ABOVE. *)
Definition is_upper (c : N) : bool := ((65 <=? c) && (c <=? 90))%N.

Definition KELVIN_SIGN : N := 8490.
Definition CAPITAL_I_WITH_DOT_ABOVE : N := 304.
Definition COMBINING_DOT_ABOVE : N := 775.

(** [str.lower] on one code point.  Every code point not named above is
    ASCII and its own lowercase, or lies beyond ASCII and has a lowercase
    beyond ASCII; the latter kind is kept in place: what the embedding
    follows of a lowercased string is its comparison with ASCII names,
    which a code point beyond ASCII fails either way. *)
Definition lower_char (c : N) : list N :=
  if is_upper c then [(c + 32)%N]
  else if (c =? KELVIN_SIGN)%N then [107%N]
  else if (c =? CAPITAL_I_WITH_DOT_ABOVE)%N then [105%N; COMBINING_DOT_ABOVE]
  else [c].

(** [s.lower()]. *)
Definition lower (s : str) : str := flat_map lower_char s.

(** [s in names] for a tuple of strings. *)
Definition str_in (s : str) (names : list str) : bool :=
  existsb (str_eqb s) names.

(** Two code points that are the same letter up to its case: equal, an
    ASCII capital and its small letter, or the Kelvin sign and [K] or [k];
    and two strings that are so code point by code point. *)
Definition is_k (c : N) : bool := ((c =? 75) || (c =? 107))%N.

Definition same_char_ignoring_case (c d : N) : bool :=
  (c =? d)%N
  || (is_upper c && (c + 32 =? d)%N)
  || (is_upper d && (d + 32 =? c)%N)
  || ((c =? KELVIN_SIGN)%N && is_k d)
  || ((d =? KELVIN_SIGN)%N && is_k c).

Fixpoint case_variant (s t : str) : bool :=
  match s, t with
  | [], [] => true
  | c :: s', d :: t' => same_char_ignoring_case c d && case_variant s' t'
  | _, _ => false
  end.

(** ** Python numbers and tables *)

(** A Python number held in an attribute: an [int] or a [float]. *)
Inductive PyNumber : Type :=
| PyInt (n : Z)
| PyFloat (v : f64).

(** [v == 0] on a Python number. *)
Definition eq_zero (v : PyNumber) : bool :=
  match v with
  | PyInt n => n =? 0
  | PyFloat v => F64.eqb v F64.zero
  end.

(** An [xtrack.TwissTable]: named columns of optics functions. *)
Definition TwissTable : Type := list (str * list f64).

(** ** [IBSKick], the parent class *)

Module IBSKick.

(** An instance of the parent class carries no attribute of its own. *)
Inductive t : Type := new.

Definition iscollective : bool := true.

(** [to_dict(self)]: one [raise] statement.  Subclasses inherit it, so it
    is written over any type of [self]. *)
Definition to_dict {Self : Type} : Py Self unit :=
  raise (NotImplementedError
           "IBS kick elements should not be saved as part of the line").

End IBSKick.

(** ** [IBSSimpleKick] *)

Module IBSSimpleKick.

Record t : Type := {
  num_slices : Z;
  formalism : str;
  kick_coefficients : option IBSKickCoefficients.t;
  update_every : option Z;
  _name : option str;
  _twiss : option TwissTable;
  _scale_strength : PyNumber
}.

(** The formalism names the constructor asserts on. *)
Definition accepted_formalisms : list str :=
  [u "nagaitsev"; u "bjorken-mtingwa"; u "b&m"].

(** [IBSSimpleKick(formalism, num_slices)]. *)
Definition __init__ (formalism : str) (num_slices : Z) : result t :=
  if negb (str_in (lower formalism) accepted_formalisms) then
    Raise AssertionError
  else
    Ok {| num_slices := num_slices;
          formalism := formalism;
          kick_coefficients := None;
          update_every := None;
          _name := None;
          _twiss := None;
          _scale_strength := PyInt 0 |}.

(** The class defines no [to_dict]: the attribute resolves to the parent's. *)
Definition to_dict : Py t unit := IBSKick.to_dict.

End IBSSimpleKick.

(** An instance of [IBSKick] or of a subclass of it, and its [to_dict] as
    attribute lookup finds it. *)
Inductive IBSKickElement : Type :=
| Parent (self : IBSKick.t)
| Simple (self : IBSSimpleKick.t).

Definition to_dict : Py IBSKickElement unit :=
  fun element =>
    match element with
    | Parent self =>
        let (r, self') := IBSKick.to_dict self in (r, Parent self')
    | Simple self =>
        let (r, self') := IBSSimpleKick.to_dict self in (r, Simple self')
    end.

(* ================================================================== *)
(** * Tracking through the Simple kick *)
(* ================================================================== *)

(** Modelled from the spec: the analytical growth rates (the value class
    [IBSGrowthRates] of [xfields.ibs._analytical]), three floats. *)
Record IBSGrowthRates : Type := { Tx : f64; Ty : f64; Tz : f64 }.

(** Modelled from the spec: the coefficient cache, unset or holding the
    bundle last computed and the turn it was computed at. *)
Inductive CachedState : Type :=
| UNSET
| CACHED (turn_computed : Z) (bundle : IBSKickCoefficients.t).

Section Track.

(** Modelled from the spec: the collaborators of the kick element, none of
    them in the source file: the random generator of the context, the
    growth-rate engine, the turn counter of the ensemble and the
    kick-coefficient formula of the Simple formalism. *)
Variable RandomState : Type.
Variable standard_normal : RandomState -> f64 * RandomState.
Variable growth_rates :
  str -> option TwissTable -> Particles -> result IBSGrowthRates.
Variable _current_turn : Particles -> Z.
Variable kick_coefficient : f64 -> Z -> Z -> Z -> f64.

(** Modelled from the spec: what one call of [track] can read and write:
    the element, its cache, the ensemble, the generator and the log. *)
Record TrackStore : Type := {
  element : IBSSimpleKick.t;
  cache : CachedState;
  particles : Particles;
  generator : RandomState;
  log : list string
}.

Definition set_cache (c : CachedState) (k : IBSKickCoefficients.t)
    (s : TrackStore) : TrackStore :=
  let e := element s in
  {| element :=
       {| IBSSimpleKick.num_slices := IBSSimpleKick.num_slices e;
          IBSSimpleKick.formalism := IBSSimpleKick.formalism e;
          IBSSimpleKick.kick_coefficients := Some k;
          IBSSimpleKick.update_every := IBSSimpleKick.update_every e;
          IBSSimpleKick._name := IBSSimpleKick._name e;
          IBSSimpleKick._twiss := IBSSimpleKick._twiss e;
          IBSSimpleKick._scale_strength := IBSSimpleKick._scale_strength e |};
     cache := c;
     particles := particles s;
     generator := generator s;
     log := log s |}.

Definition set_particles (p : Particles) (s : TrackStore) : TrackStore :=
  {| element := element s; cache := cache s; particles := p;
     generator := generator s; log := log s |}.

Definition set_generator (g : RandomState) (s : TrackStore) : TrackStore :=
  {| element := element s; cache := cache s; particles := particles s;
     generator := g; log := log s |}.

Definition warning (msg : string) : Py TrackStore unit :=
  fun s => (Ok tt,
            {| element := element s; cache := cache s;
               particles := particles s; generator := generator s;
               log := log s ++ [msg] |}).

(** Modelled from the spec: step 4, a negative growth rate is set to zero,
    with one warning. *)
Definition clamp (axis : string) (rate : f64) : Py TrackStore f64 :=
  if F64.ltb rate F64.zero then
    (warning ("negative growth rate set to zero: " ++ axis) ;; ret F64.zero)%py
  else ret rate.

(** Modelled from the spec: steps 3 to 5 on a due update, growth rates from
    the engine, clamped, turned into kick coefficients and stored whole. *)
Definition recompute (turn : Z) (every : Z) : Py TrackStore IBSKickCoefficients.t :=
  (s <- get ;;
   let e := element s in
   rates <- call (growth_rates (IBSSimpleKick.formalism e)
                               (IBSSimpleKick._twiss e) (particles s)) ;;
   tx <- clamp "x" (Tx rates) ;;
   ty <- clamp "y" (Ty rates) ;;
   tz <- clamp "z" (Tz rates) ;;
   let n_active := count is_active (rows (particles s)) in
   let coeff rate :=
     kick_coefficient rate n_active (IBSSimpleKick.num_slices e) every in
   let k := IBSKickCoefficients.__init__ (coeff tx) (coeff ty) (coeff tz) in
   s' <- get ;;
   put (set_cache (CACHED turn k) k s') ;;
   ret k)%py.

(** Modelled from the spec: step 3, the cache decides whether an update is
    due (an element without update interval cannot be updated). *)
Definition maybe_update (turn : Z) : Py TrackStore IBSKickCoefficients.t :=
  (s <- get ;;
   match IBSSimpleKick.update_every (element s) with
   | None => raise (ValueError "update_every is unset")
   | Some every =>
       match cache s with
       | UNSET => recompute turn every
       | CACHED turn_computed bundle =>
           if turn - turn_computed >=? every then recompute turn every
           else ret bundle
       end
   end)%py.

(** Modelled from the spec: [n] draws from the generator, in order. *)
Fixpoint draws (n : nat) (g : RandomState) : list f64 * RandomState :=
  match n with
  | O => ([], g)
  | S n' =>
      let (v, g1) := standard_normal g in
      let (vs, g2) := draws n' g1 in
      (v :: vs, g2)
  end.

Definition normal (n : nat) : Py TrackStore (list f64) :=
  fun s => let (vs, g) := draws n (generator s) in (Ok vs, set_generator g s).

(** Modelled from the spec: step 7, the increments of one axis, draw times
    [sqrt(weight * coefficient)]. *)
Definition increments (k : f64) (weights rnd : list f64) : list f64 :=
  map2 (fun w r => (r * F64.sqrt (w * k))%f64) weights rnd.

Definition kicked (p : Particle) (dpx dpy ddelta : f64) : Particle :=
  {| x := x p; px := (px p + dpx)%f64;
     y := y p; py := (py p + dpy)%f64;
     zeta := zeta p; delta := (delta p + ddelta)%f64;
     state := state p |}.

(** Modelled from the spec: writing the increments back, active particles
    take theirs in order, inactive particles stay. *)
Fixpoint apply_kicks (ps : list Particle) (dx dy dz : list f64) : list Particle :=
  match ps with
  | [] => []
  | p :: ps' =>
      if is_active p then
        match dx, dy, dz with
        | a :: dx', b :: dy', c :: dz' =>
            kicked p a b c :: apply_kicks ps' dx' dy' dz'
        | _, _, _ => p :: ps'
        end
      else p :: apply_kicks ps' dx dy dz
  end.

(** Modelled from the spec: [IBSSimpleKick.track(particles)], whose body
    lies beyond the end of the source file.  It follows the seven steps of
    the Simple kick applicator. *)
Definition track : Py TrackStore unit :=
  (s <- get ;;
   if eq_zero (IBSSimpleKick._scale_strength (element s)) then ret tt
   else
     let n := List.length (filter is_active (rows (particles s))) in
     if (n =? 0)%nat then ret tt
     else
       k <- maybe_update (_current_turn (particles s)) ;;
       weights <- zoom particles set_particles
                    (line_density (IBSSimpleKick.num_slices (element s))) ;;
       rx <- normal n ;;
       ry <- normal n ;;
       rz <- normal n ;;
       let dpx := increments (IBSKickCoefficients.Kx k) weights rx in
       let dpy := increments (IBSKickCoefficients.Ky k) weights ry in
       let ddelta := increments (IBSKickCoefficients.Kz k) weights rz in
       s' <- get ;;
       put (set_particles
              {| _context := _context (particles s');
                 rows := apply_kicks (rows (particles s')) dpx dpy ddelta |}
              s'))%py.

(** The store right after construction: the element as the constructor
    returned it, nothing cached. *)
Definition fresh_store (e : IBSSimpleKick.t) (p : Particles)
    (g : RandomState) (l : list string) : TrackStore :=
  {| element := e; cache := UNSET; particles := p; generator := g; log := l |}.

End Track.

(* ================================================================== *)
(** * Vocabulary of the properties *)
(* ================================================================== *)

(** An exception that is a [ValueError], or an [OverflowError], whatever
    its message. *)
Definition is_ValueError (e : exception) : Prop :=
  exists msg, e = ValueError msg.

Definition is_OverflowError (e : exception) : Prop :=
  exists msg, e = OverflowError msg.

(** A float that is a zero or NaN: what [z - z] is, and what stays so under
    multiplication and division. *)
Definition zero_or_nan (u : f64) : Prop :=
  F64.is_zero u = true \/ u = F64.nan.

(** Two floats that are the same number: equal, or both a zero. *)
Definition same_value (a b : f64) : Prop :=
  a = b \/ (F64.is_zero a = true /\ F64.is_zero b = true).

(** A float that is NaN, [z] itself, or a zero when [z] is a zero. *)
Definition near (z e : f64) : Prop :=
  e = F64.nan \/ same_value z e.

(** What C1 asks of a call on a bunch of zero length: weights are returned,
    all the same, all finite. *)
Definition uniform (w : list f64) : Prop :=
  exists v, w = repeat v (List.length w).

Definition degenerate_contract (particles : Particles) (num_slices : Z) : Prop :=
  exists w,
    returned (line_density num_slices) particles = Ok w
    /\ uniform w
    /\ Forall (fun v => F64.is_finite v = true) w.

(** [x <= y] on floats, spelled out on the representation. *)
Definition le_prop (x y : f64) : Prop :=
  match x, y with
  | S754_nan, _ | _, S754_nan => False
  | S754_infinity true, _ => True
  | _, S754_infinity false => True
  | S754_infinity false, _ => False
  | _, S754_infinity true => False
  | S754_zero _, S754_zero _ => True
  | S754_zero _, S754_finite s _ _ => s = false
  | S754_finite s _ _, S754_zero _ => s = true
  | S754_finite sx mx ex, S754_finite sy my ey =>
      match sx, sy with
      | true, false => True
      | false, true => False
      | false, false => ex < ey \/ (ex = ey /\ Zpos mx <= Zpos my)
      | true, true => ey < ex \/ (ex = ey /\ Zpos my <= Zpos mx)
      end
  end.

(** Point [i] of [np.linspace(start, stop, num)] before the end point is
    set: [i] steps of [(stop - start) / (num - 1)] from [start] (the product
    is taken the other way round when the step rounds to zero). *)
Definition linspace_step (start stop : f64) (num : Z) : f64 :=
  ((stop - start) / F64.of_Z (num - 1))%f64.

Definition linspace_point (start stop : f64) (num i : Z) : f64 :=
  ((if F64.eqb (linspace_step start stop num) F64.zero
    then (F64.of_Z i / F64.of_Z (num - 1)) * (stop - start)
    else F64.of_Z i * linspace_step start stop num) + start)%f64.

(** The selection both reductions fold: the first argument when it is NaN
    or strictly in relation with the second, else the second; and what its
    fold reaches: NaN, or a float in relation with every element. *)
Definition pick (relb : f64 -> f64 -> bool) (in1 in2 : f64) : f64 :=
  if relb in1 in2 || F64.is_nan in1 then in1 else in2.

Definition dominates (rel : f64 -> f64 -> Prop) (r : f64) (l : list f64) : Prop :=
  r = F64.nan \/ forall z, In z l -> rel r z.

(** A float that is NaN or the infinity of sign [s]: what the padding, the
    ends and the step of the edges are when the slice width is not finite. *)
Definition inf_or_nan (s : bool) (x : f64) : Prop :=
  x = F64.nan \/ x = S754_infinity s.

(** A mantissa of 53 binary digits with an exponent between -52 and 0: the
    form of every integer from 1 to [2^53 - 1] as a float. *)
Definition canonical_integer (m : positive) (e : Z) : Prop :=
  digits2_pos m = 53%positive /\ -52 <= e <= 0.

(* ================================================================== *)
(** * Properties *)
(* ================================================================== *)

Unset Implicit Arguments.

(** ** The coefficient classes *)

(** C9: for each of the three coefficient classes, constructing from three
    floats and converting with [as_tuple] gives back the three floats, in the
    order they were given. *)
Theorem as_tuple_roundtrip :
  forall a b c : f64,
    DiffusionCoefficients.as_tuple (DiffusionCoefficients.__init__ a b c) = (a, b, c)
    /\ FrictionCoefficients.as_tuple (FrictionCoefficients.__init__ a b c) = (a, b, c)
    /\ IBSKickCoefficients.as_tuple (IBSKickCoefficients.__init__ a b c) = (a, b, c).
Proof.
  intros a b c. repeat split.
Qed.

(** ** Serialization *)

(** C7: [to_dict] on an [IBSKick] or on an instance of its subclass, in every
    state of the element, raises [NotImplementedError] (the spec's
    UnsupportedOperation): it returns no value, and the element is as it
    was. *)
Theorem to_dict_always_raises :
  forall element : IBSKickElement,
    returned to_dict element =
      Raise (NotImplementedError
               "IBS kick elements should not be saved as part of the line")
    /\ (forall v, returned to_dict element <> Ok v)
    /\ final_store to_dict element = element.
Proof.
  intros [self | self]; cbv [returned final_store to_dict IBSSimpleKick.to_dict
    IBSKick.to_dict raise fst snd]; repeat split; intros v H; discriminate H.
Qed.

(** ** The constructor of [IBSSimpleKick] *)

Lemma is_upper_spec : forall c, is_upper c = true <-> (65 <= c <= 90)%N.
Proof.
  intros c. unfold is_upper. rewrite andb_true_iff, !N.leb_le. reflexivity.
Qed.

Lemma lower_char_upper :
  forall c, is_upper c = true -> lower_char c = [(c + 32)%N].
Proof.
  intros c H. unfold lower_char. now rewrite H.
Qed.

Lemma lower_char_small :
  forall c, (97 <= c <= 122)%N -> lower_char c = [c].
Proof.
  intros c H. unfold lower_char.
  replace (is_upper c) with false
    by (symmetry; apply not_true_iff_false; rewrite is_upper_spec; lia).
  replace (c =? KELVIN_SIGN)%N with false
    by (symmetry; apply N.eqb_neq; unfold KELVIN_SIGN; lia).
  replace (c =? CAPITAL_I_WITH_DOT_ABOVE)%N with false
    by (symmetry; apply N.eqb_neq; unfold CAPITAL_I_WITH_DOT_ABOVE; lia).
  reflexivity.
Qed.

Lemma lower_char_k : forall c, is_k c = true -> lower_char c = [107%N].
Proof.
  intros c H. unfold is_k in H.
  apply orb_true_iff in H as [H | H]; apply N.eqb_eq in H; subst c;
    reflexivity.
Qed.

(** Two code points that are the same letter up to case have the same
    lowercase. *)
Lemma same_char_lower :
  forall c d, same_char_ignoring_case c d = true -> lower_char c = lower_char d.
Proof.
  intros c d H. unfold same_char_ignoring_case in H.
  repeat (apply orb_true_iff in H as [H | H]).
  - apply N.eqb_eq in H. now subst.
  - apply andb_true_iff in H as [Hc H]. apply N.eqb_eq in H. subst d.
    rewrite (lower_char_upper c Hc). symmetry. apply lower_char_small.
    apply is_upper_spec in Hc. lia.
  - apply andb_true_iff in H as [Hd H]. apply N.eqb_eq in H. subst c.
    rewrite (lower_char_upper d Hd). apply lower_char_small.
    apply is_upper_spec in Hd. lia.
  - apply andb_true_iff in H as [Hc Hd]. apply N.eqb_eq in Hc. subst c.
    now rewrite (lower_char_k d Hd).
  - apply andb_true_iff in H as [Hd Hc]. apply N.eqb_eq in Hd. subst d.
    now rewrite (lower_char_k c Hc).
Qed.

Lemma case_variant_lower :
  forall s t, case_variant s t = true -> lower s = lower t.
Proof.
  induction s as [| c s IH]; intros [| d t] H; simpl in *; try discriminate.
  - reflexivity.
  - apply andb_true_iff in H as [Hc Hs].
    now rewrite (same_char_lower _ _ Hc), (IH _ Hs).
Qed.

Lemma str_in_In : forall s names, str_in s names = true <-> In s names.
Proof.
  intros s names. unfold str_in, str_eqb. rewrite existsb_exists. split.
  - intros [n [Hin Heq]].
    destruct (list_eq_dec N.eq_dec s n) as [-> | _]; [exact Hin | discriminate].
  - intros Hin. exists s. split; [assumption |].
    destruct (list_eq_dec N.eq_dec s s) as [_ | Hne]; [reflexivity |].
    now contradiction Hne.
Qed.

Lemma accepted_formalisms_lower :
  forall name, In name IBSSimpleKick.accepted_formalisms -> lower name = name.
Proof.
  intros name [H | [H | [H | []]]]; subst name; reflexivity.
Qed.

Lemma init_accepts :
  forall formalism num_slices,
    In (lower formalism) IBSSimpleKick.accepted_formalisms ->
    IBSSimpleKick.__init__ formalism num_slices =
      Ok {| IBSSimpleKick.num_slices := num_slices;
            IBSSimpleKick.formalism := formalism;
            IBSSimpleKick.kick_coefficients := None;
            IBSSimpleKick.update_every := None;
            IBSSimpleKick._name := None;
            IBSSimpleKick._twiss := None;
            IBSSimpleKick._scale_strength := PyInt 0 |}.
Proof.
  intros formalism num_slices H. apply str_in_In in H.
  unfold IBSSimpleKick.__init__. now rewrite H.
Qed.

Lemma init_rejects :
  forall formalism num_slices,
    ~ In (lower formalism) IBSSimpleKick.accepted_formalisms ->
    IBSSimpleKick.__init__ formalism num_slices = Raise AssertionError.
Proof.
  intros formalism num_slices H. unfold IBSSimpleKick.__init__.
  destruct (str_in (lower formalism) IBSSimpleKick.accepted_formalisms) eqn:E.
  - apply str_in_In in E. contradiction.
  - reflexivity.
Qed.

(** C3: a formalism whose lowercase form (Python's [str.lower], on Unicode
    code points) is none of "nagaitsev", "bjorken-mtingwa", "b&m" makes the
    constructor raise (the failing [assert], the spec's
    InvalidConfiguration) and no element exists to be tracked; a formalism
    whose lowercase form is one of them, and so every spelling of an
    accepted name in any letter case, constructs an element that keeps the
    spelling given. *)
Theorem formalism_checked_at_construction :
  forall (formalism : str) (num_slices : Z),
    (~ In (lower formalism) IBSSimpleKick.accepted_formalisms ->
       IBSSimpleKick.__init__ formalism num_slices = Raise AssertionError)
    /\ (In (lower formalism) IBSSimpleKick.accepted_formalisms ->
         exists kick, IBSSimpleKick.__init__ formalism num_slices = Ok kick)
    /\ (forall name,
         In name IBSSimpleKick.accepted_formalisms ->
         case_variant formalism name = true ->
         exists kick,
           IBSSimpleKick.__init__ formalism num_slices = Ok kick
           /\ IBSSimpleKick.formalism kick = formalism).
Proof.
  intros formalism num_slices. split; [| split].
  - apply init_rejects.
  - intros H. eexists. now apply init_accepts.
  - intros name Hname Hcase.
    assert (In (lower formalism) IBSSimpleKick.accepted_formalisms) as Hin.
    { rewrite (case_variant_lower _ _ Hcase), (accepted_formalisms_lower _ Hname).
      exact Hname. }
    eexists. split; [now apply init_accepts | reflexivity].
Qed.

(** The spellings the documentation names are accepted, so is a spelling
    with U+212A KELVIN SIGN for the letter k, whose lowercase is "k"; and
    "quadrupole" is refused. *)
Lemma formalism_checked_at_construction_witness :
  (exists kick, IBSSimpleKick.__init__ (u "B&M") 50 = Ok kick
                /\ IBSSimpleKick.formalism kick = u "B&M")
  /\ (exists kick, IBSSimpleKick.__init__ (u "Bjorken-Mtingwa") 50 = Ok kick
                   /\ IBSSimpleKick.formalism kick = u "Bjorken-Mtingwa")
  /\ (exists kick, IBSSimpleKick.__init__ (u "NAGAITSEV") 50 = Ok kick
                   /\ IBSSimpleKick.formalism kick = u "NAGAITSEV")
  /\ (exists kick,
        IBSSimpleKick.__init__ (u "bjor" ++ KELVIN_SIGN :: u "en-mtingwa") 50
        = Ok kick)
  /\ IBSSimpleKick.__init__ (u "quadrupole") 50 = Raise AssertionError.
Proof.
  split; [| split; [| split; [| split]]].
  - apply (proj2 (proj2 (formalism_checked_at_construction (u "B&M") 50))
             (u "b&m")).
    + right; right; left; reflexivity.
    + reflexivity.
  - apply (proj2 (proj2 (formalism_checked_at_construction
                           (u "Bjorken-Mtingwa") 50))
             (u "bjorken-mtingwa")).
    + right; left; reflexivity.
    + reflexivity.
  - apply (proj2 (proj2 (formalism_checked_at_construction (u "NAGAITSEV") 50))
             (u "nagaitsev")).
    + left; reflexivity.
    + reflexivity.
  - apply (proj1 (proj2 (formalism_checked_at_construction
                           (u "bjor" ++ KELVIN_SIGN :: u "en-mtingwa") 50))).
    right; left; reflexivity.
  - apply (proj1 (formalism_checked_at_construction (u "quadrupole") 50)).
    intros [H | [H | [H | []]]]; discriminate H.
Defined.

(** ** The line density: what it reads and what it leaves *)

Lemma getitem_mask_active :
  forall particles,
    getitem_mask (Particles_zeta particles)
                 (map (fun s => s >? 0) (Particles_state particles))
    = active_zeta particles.
Proof.
  intros [ctx ps]. unfold Particles_zeta, Particles_state, active_zeta. simpl.
  induction ps as [| p ps IH]; simpl.
  - reflexivity.
  - unfold is_active at 1. destruct (state p >? 0); simpl; now rewrite IH.
Qed.

(** [line_density] is the pure pipeline [weights] on the active coordinates,
    and hands the store back as it found it. *)
Lemma line_density_weights :
  forall num_slices particles,
    line_density num_slices particles
    = (weights (nplike_lib (_context particles)) (active_zeta particles) num_slices,
       particles).
Proof.
  intros num_slices particles.
  unfold line_density, weights, line_density_bins, bind, get, call, and_then.
  rewrite getitem_mask_active.
  destruct (np_max _ _) as [head |]; [| reflexivity].
  destruct (np_min _ _) as [tail |]; [| reflexivity].
  destruct (truediv_int _ _) as [width |]; [| reflexivity].
  destruct (np_linspace _ _ _ _) as [edges |]; [| reflexivity].
  cbn [bin_edges bin_centers].
  destruct (np_histogram _ _ _ _) as [[counts edges'] |]; reflexivity.
Qed.

(** C10: [line_density] does not mutate its input: after the call the
    ensemble (context, coordinates, momenta and state flags of every
    particle) is the one before the call, whether the call returned or
    raised; and its result is read off the context, [zeta] and [state]
    alone. *)
Theorem line_density_leaves_particles :
  forall (num_slices : Z) (particles : Particles),
    final_store (line_density num_slices) particles = particles
    /\ (forall particles' : Particles,
          _context particles' = _context particles ->
          Particles_zeta particles' = Particles_zeta particles ->
          Particles_state particles' = Particles_state particles ->
          returned (line_density num_slices) particles'
          = returned (line_density num_slices) particles).
Proof.
  intros num_slices particles. split.
  - unfold final_store. now rewrite line_density_weights.
  - intros particles' Hc Hz Hs. unfold returned.
    rewrite !line_density_weights. cbn [fst].
    rewrite <- !getitem_mask_active. now rewrite Hc, Hz, Hs.
Qed.

(** Two ensembles that differ in momenta and transverse coordinates only. *)
Lemma line_density_leaves_particles_witness :
  let p := ensemble [particle_at F64.one 1; particle_at F64.lit_2 1;
                     particle_at F64.zero 0] in
  let p' := ensemble [{| x := F64.one; px := F64.lit_2; y := F64.one;
                         py := F64.one; zeta := F64.one; delta := F64.one;
                         state := 1 |};
                      particle_at F64.lit_2 1; particle_at F64.zero 0] in
  final_store (line_density 2) p = p
  /\ returned (line_density 2) p' = returned (line_density 2) p.
Proof.
  intros p p'. split.
  - exact (proj1 (line_density_leaves_particles 2 p)).
  - apply (proj2 (line_density_leaves_particles 2 p) p'); reflexivity.
Defined.

(** C8: two ensembles whose active particles have the same longitudinal
    coordinates in the same order get the same result from [line_density]
    (the same weights, or the same exception), whatever inactive particles
    each holds and wherever these sit. *)
Theorem line_density_ignores_inactive :
  forall (num_slices : Z) (particles1 particles2 : Particles),
    active_zeta particles1 = active_zeta particles2 ->
    returned (line_density num_slices) particles1
    = returned (line_density num_slices) particles2.
Proof.
  intros num_slices p1 p2 H. unfold returned.
  rewrite !line_density_weights. cbn [fst]. rewrite H.
  destruct (_context p1), (_context p2). reflexivity.
Qed.

(** Inactive particles before, between and after the active ones. *)
Lemma line_density_ignores_inactive_witness :
  returned (line_density 2)
    (ensemble [particle_at F64.one 1; particle_at F64.lit_2 1])
  = returned (line_density 2)
    (ensemble [particle_at (F64.of_Z 7) 0; particle_at F64.one 1;
               particle_at F64.nan (-1); particle_at F64.lit_2 1;
               particle_at F64.inf 0]).
Proof.
  apply line_density_ignores_inactive. reflexivity.
Defined.

(** ** Converting an integer to binary64 *)

Arguments F64.add : simpl never.
Arguments F64.sub : simpl never.
Arguments F64.mul : simpl never.
Arguments F64.div : simpl never.
Arguments F64.of_Z : simpl never.

(** The number of binary digits of a mantissa brackets it between two
    powers of two. *)
Lemma digits2_pos_lower :
  forall p, 2 ^ (Zpos (digits2_pos p) - 1) <= Zpos p.
Proof.
  intros p. change (digits2_pos p) with (Pos.size p).
  pose proof (Pos.size_le p) as H.
  apply Pos2Z.pos_le_pos in H. rewrite Pos2Z.inj_pow in H.
  replace (Zpos (Pos.size p)) with (Z.succ (Zpos (Pos.size p) - 1)) in H by lia.
  rewrite Z.pow_succ_r in H by lia.
  change (Zpos p~0) with (2 * Zpos p) in H.
  apply Z.mul_le_mono_pos_l in H; [exact H | lia].
Qed.

Lemma digits2_pos_upper :
  forall p, Zpos p < 2 ^ Zpos (digits2_pos p).
Proof.
  intros p. change (digits2_pos p) with (Pos.size p).
  pose proof (Pos.size_gt p) as H.
  apply Pos2Z.pos_lt_pos in H. now rewrite Pos2Z.inj_pow in H.
Qed.

Lemma Zdigits2_upper :
  forall x D, 0 < x < 2 ^ D -> Zdigits2 x <= D.
Proof.
  intros [| p | p] D [H0 H]; try lia. cbn [Zdigits2].
  pose proof (digits2_pos_lower p) as Hl.
  destruct (Z.lt_ge_cases D 0) as [Hneg | Hpos].
  - rewrite Z.pow_neg_r in H by assumption. lia.
  - assert (2 ^ (Zpos (digits2_pos p) - 1) < 2 ^ D) as Hlt by lia.
    apply Z.pow_lt_mono_r_iff in Hlt; lia.
Qed.

Lemma Zdigits2_succ :
  forall a b, 0 < a -> a <= b <= a + 1 -> Zdigits2 b <= Zdigits2 a + 1.
Proof.
  intros [| p | p] b Ha Hb; try lia. cbn [Zdigits2].
  apply Zdigits2_upper. split; [lia |].
  pose proof (digits2_pos_upper p) as Hu.
  rewrite Z.pow_add_r by lia. lia.
Qed.

Lemma shr_1_m :
  forall mrs, 0 <= shr_m mrs -> shr_m (shr_1 mrs) = shr_m mrs / 2.
Proof.
  intros [m r s] H. cbn [shr_m] in H. rewrite <- Z.div2_div.
  destruct m as [| p | p]; [reflexivity | | lia].
  destruct p; reflexivity.
Qed.

Lemma pow2_xO : forall k, 2 ^ Zpos k~0 = 2 ^ Zpos k * 2 ^ Zpos k.
Proof.
  intros k. rewrite <- Z.pow_add_r by lia. f_equal. lia.
Qed.

Lemma pow2_xI : forall k, 2 ^ Zpos k~1 = 2 * (2 ^ Zpos k * 2 ^ Zpos k).
Proof.
  intros k. rewrite <- Z.pow_add_r, <- Z.pow_succ_r by lia. f_equal. lia.
Qed.

Lemma iter_shr_1_m :
  forall k mrs,
    0 <= shr_m mrs ->
    shr_m (iter_pos shr_1 k mrs) = shr_m mrs / 2 ^ Zpos k.
Proof.
  induction k as [k IH | k IH |]; intros mrs H; cbn [iter_pos].
  - assert (0 <= shr_m (shr_1 mrs)) as H1
      by (rewrite shr_1_m by assumption; apply Z.div_pos; lia).
    assert (0 <= shr_m (iter_pos shr_1 k (shr_1 mrs))) as H2
      by (rewrite IH by assumption; apply Z.div_pos; lia).
    rewrite IH, IH, shr_1_m by assumption.
    rewrite !Z.div_div by lia. now rewrite pow2_xI, Z.mul_assoc.
  - assert (0 <= shr_m (iter_pos shr_1 k mrs)) as H2
      by (rewrite IH by assumption; apply Z.div_pos; lia).
    rewrite IH, IH by assumption.
    rewrite !Z.div_div by lia. now rewrite pow2_xO.
  - rewrite shr_1_m by assumption. now rewrite Z.pow_1_r.
Qed.

Lemma shr_record_of_loc_m :
  forall m l, shr_m (shr_record_of_loc m l) = m.
Proof.
  intros m [| []]; reflexivity.
Qed.

(** Rounding to the format shifts a positive mantissa right by fewer places
    than it has digits: the mantissa stays positive, the exponent grows by
    the shift and the two together do not grow. *)
Lemma shr_fexp_bounds :
  forall m e l mrs e',
    0 < m -> emin F64.prec F64.emax <= e ->
    shr_fexp F64.prec F64.emax m e l = (mrs, e') ->
    0 < shr_m mrs
    /\ emin F64.prec F64.emax <= e'
    /\ e' <= Z.max e (Zdigits2 m + e - 53)
    /\ Zdigits2 (shr_m mrs) + e' <= Zdigits2 m + e.
Proof.
  intros m e l mrs e' Hm He. unfold shr_fexp, shr.
  destruct m as [| p | p]; try lia. cbn [Zdigits2].
  pose proof (digits2_pos_lower p) as Hd.
  pose proof (digits2_pos_upper p) as Hu.
  destruct (fexp F64.prec F64.emax (Zpos (digits2_pos p) + e) - e)
    as [| q | q] eqn:Hk; intros H; injection H as <- <-;
    try (rewrite shr_record_of_loc_m; cbn [Zdigits2]; lia).
  rewrite iter_shr_1_m by (rewrite shr_record_of_loc_m; lia).
  rewrite shr_record_of_loc_m.
  assert (Zpos q <= Zpos (digits2_pos p) - 53) as Hq
    by (unfold fexp, emin, F64.prec, F64.emax in *; lia).
  assert (0 < Zpos p / 2 ^ Zpos q) as Hpos.
  { apply Z.div_str_pos. split; [lia |].
    apply Z.le_trans with (2 ^ (Zpos (digits2_pos p) - 1)); [| assumption].
    apply Z.pow_le_mono_r; lia. }
  split; [exact Hpos |]. split; [lia |]. split; [lia |].
  assert (Zdigits2 (Zpos p / 2 ^ Zpos q) <= Zpos (digits2_pos p) - Zpos q);
    [| lia].
  apply Zdigits2_upper. split; [exact Hpos |].
  apply Z.div_lt_upper_bound; [lia |].
  rewrite <- Z.pow_add_r by lia.
  now replace (Zpos q + (Zpos (digits2_pos p) - Zpos q))
    with (Zpos (digits2_pos p)) by lia.
Qed.

(** The shift only raises the exponent, at least to 53 places below the top
    digit. *)
Lemma shr_fexp_exponent :
  forall m e l mrs e',
    shr_fexp F64.prec F64.emax m e l = (mrs, e') ->
    e <= e' /\ Zdigits2 m + e - 53 <= e'.
Proof.
  intros m e l mrs e'. unfold shr_fexp, shr.
  destruct (fexp F64.prec F64.emax (Zdigits2 m + e) - e) as [| q | q] eqn:Hk;
    intros H; injection H as <- <-;
    unfold fexp, emin, F64.prec, F64.emax in *; lia.
Qed.

Lemma round_nearest_even_bounds :
  forall m l, m <= round_nearest_even m l <= m + 1.
Proof.
  intros m [| []]; cbn [round_nearest_even]; try destruct (Z.even m); lia.
Qed.

(** A positive mantissa whose exponent is in range and whose magnitude is
    below [2^1023] rounds to a finite float of the sign given. *)
Lemma binary_round_aux_finite :
  forall s m e l,
    0 < m ->
    emin F64.prec F64.emax <= e <= 971 ->
    Zdigits2 m + e <= 1023 ->
    exists m' e',
      binary_round_aux F64.prec F64.emax s m e l = S754_finite s m' e'.
Proof.
  intros s m e l Hm He Hd. unfold binary_round_aux.
  destruct (shr_fexp F64.prec F64.emax m e l) as [mrs1 e1] eqn:E1.
  destruct (shr_fexp_bounds _ _ _ _ _ Hm (proj1 He) E1)
    as (Hm1 & He1 & He1' & Hd1).
  pose proof (round_nearest_even_bounds (shr_m mrs1) (loc_of_shr_record mrs1))
    as Hr.
  set (m1 := round_nearest_even (shr_m mrs1) (loc_of_shr_record mrs1)) in *.
  assert (0 < m1) as Hm1' by lia.
  pose proof (Zdigits2_succ _ _ Hm1 Hr) as Hd1'.
  destruct (shr_fexp F64.prec F64.emax m1 e1 loc_Exact) as [mrs2 e2] eqn:E2.
  destruct (shr_fexp_bounds _ _ _ _ _ Hm1' He1 E2) as (Hm2 & _ & He2 & _).
  destruct (shr_m mrs2) as [| q | q]; try lia.
  replace (e2 <=? F64.emax - F64.prec) with true
    by (symmetry; apply Z.leb_le; unfold F64.emax, F64.prec; lia).
  now eexists _, _.
Qed.

(** A mantissa of 53 digits is kept as it is. *)
Lemma binary_round_aux_canonical :
  forall s m e,
    digits2_pos m = 53%positive ->
    emin F64.prec F64.emax <= e <= 971 ->
    binary_round_aux F64.prec F64.emax s (Zpos m) e loc_Exact
    = S754_finite s m e.
Proof.
  intros s m e Hm He.
  assert (shr_fexp F64.prec F64.emax (Zpos m) e loc_Exact
          = (shr_record_of_loc (Zpos m) loc_Exact, e)) as Hshr.
  { unfold shr_fexp. cbn [Zdigits2]. rewrite Hm.
    replace (fexp F64.prec F64.emax (53 + e) - e) with 0
      by (unfold fexp, emin, F64.prec, F64.emax in *; lia).
    reflexivity. }
  unfold binary_round_aux. rewrite Hshr.
  cbn [shr_record_of_loc shr_m loc_of_shr_record round_nearest_even].
  rewrite Hshr. cbn [shr_record_of_loc shr_m].
  now replace (e <=? F64.emax - F64.prec) with true
    by (symmetry; apply Z.leb_le; unfold F64.emax, F64.prec; lia).
Qed.

Lemma digits2_pos_iter_xO :
  forall d p,
    Zpos (digits2_pos (Pos.iter xO p d)) = Zpos (digits2_pos p) + Zpos d.
Proof.
  intros d p. induction d as [| d IH] using Pos.peano_ind.
  - cbn [Pos.iter digits2_pos]. lia.
  - rewrite Pos.iter_succ. cbn [digits2_pos]. lia.
Qed.

(** An integer of magnitude below [2^1023] converts to a finite float of
    its sign. *)
Lemma binary_round_finite :
  forall s p,
    Zpos p < 2 ^ 1023 ->
    exists m e, binary_round F64.prec F64.emax s p 0 = S754_finite s m e.
Proof.
  intros s p Hp. unfold binary_round, shl_align.
  assert (Zpos (digits2_pos p) <= 1023) as Hd
    by (apply (Zdigits2_upper (Zpos p)); lia).
  destruct (fexp F64.prec F64.emax (Zpos (digits2_pos p) + 0) - 0)
    as [| d | d] eqn:Hk.
  - apply binary_round_aux_finite; cbn [Zdigits2];
      unfold emin, F64.prec, F64.emax; lia.
  - apply binary_round_aux_finite; cbn [Zdigits2];
      unfold emin, F64.prec, F64.emax; lia.
  - apply binary_round_aux_finite; cbn [Zdigits2];
      rewrite ?digits2_pos_iter_xO;
      unfold fexp, emin, F64.prec, F64.emax in *; lia.
Qed.

(** An integer from 1 to [2^53 - 1] converts to a float with a mantissa of
    53 digits. *)
Lemma binary_round_canonical :
  forall s p,
    Zpos p < 2 ^ 53 ->
    exists m e,
      binary_round F64.prec F64.emax s p 0 = S754_finite s m e
      /\ canonical_integer m e.
Proof.
  intros s p Hp. unfold binary_round, shl_align.
  assert (Zpos (digits2_pos p) <= 53) as Hd
    by (apply (Zdigits2_upper (Zpos p)); lia).
  destruct (fexp F64.prec F64.emax (Zpos (digits2_pos p) + 0) - 0)
    as [| d | d] eqn:Hk.
  - assert (digits2_pos p = 53%positive) as H53
      by (unfold fexp, emin, F64.prec, F64.emax in *; lia).
    exists p, 0. split; [| split; [exact H53 | lia]].
    apply binary_round_aux_canonical; [exact H53 |].
    unfold emin, F64.prec, F64.emax; lia.
  - unfold fexp, emin, F64.prec, F64.emax in *; lia.
  - assert (Zpos (digits2_pos (Pos.iter xO p d)) = 53) as H53
      by (rewrite digits2_pos_iter_xO;
          unfold fexp, emin, F64.prec, F64.emax in *; lia).
    injection H53 as H53.
    eexists _, _. split.
    + apply binary_round_aux_canonical; [exact H53 |].
      unfold fexp, emin, F64.prec, F64.emax in *; lia.
    + split; [exact H53 |]. unfold fexp, emin, F64.prec, F64.emax in *; lia.
Qed.

Lemma of_Z_finite :
  forall n,
    - 2 ^ 1023 < n < 2 ^ 1023 -> F64.is_finite (F64.of_Z n) = true.
Proof.
  intros [| p | p] H; [reflexivity | |];
    unfold F64.of_Z, binary_normalize.
  - destruct (binary_round_finite false p) as (m & e & ->); [lia | reflexivity].
  - destruct (binary_round_finite true p) as (m & e & ->); [lia | reflexivity].
Qed.

Lemma of_Z_positive :
  forall n,
    0 < n ->
    (exists m e, F64.of_Z n = S754_finite false m e)
    \/ F64.of_Z n = S754_infinity false.
Proof.
  intros [| p | p] H; try lia.
  destruct (Z.lt_ge_cases (Zpos p) (2 ^ 1023)) as [Hlt | Hge].
  - left. now apply binary_round_finite.
  - unfold F64.of_Z, binary_normalize, binary_round.
    destruct (shl_align p 0 _) as [mz ez] eqn:E.
    assert (emin F64.prec F64.emax <= ez) as Hez.
    { unfold shl_align in E.
      destruct (fexp F64.prec F64.emax (Zpos (digits2_pos p) + 0) - 0) eqn:Hk;
        injection E as <- <-;
        unfold fexp, emin, F64.prec, F64.emax in *; lia. }
    unfold binary_round_aux.
    destruct (shr_fexp F64.prec F64.emax (Zpos mz) ez loc_Exact)
      as [mrs1 e1] eqn:E1.
    destruct (shr_fexp_bounds _ _ _ _ _ (Pos2Z.pos_is_pos mz) Hez E1)
      as (Hm1 & He1 & _ & _).
    pose proof (round_nearest_even_bounds (shr_m mrs1)
                  (loc_of_shr_record mrs1)) as Hr.
    destruct (shr_fexp F64.prec F64.emax _ e1 loc_Exact) as [mrs2 e2] eqn:E2.
    apply shr_fexp_bounds in E2 as (Hm2 & _ & _ & _); [| lia | exact He1].
    destruct (shr_m mrs2) as [| q | q]; try lia.
    destruct (e2 <=? F64.emax - F64.prec); [left; now eexists _, _ | now right].
Qed.

(** An integer of magnitude [2^1024] or more rounds to the infinity of its
    sign. *)
Lemma binary_round_overflow :
  forall s p,
    2 ^ 1024 <= Zpos p ->
    binary_round F64.prec F64.emax s p 0 = S754_infinity s.
Proof.
  intros s p Hp. unfold binary_round, shl_align.
  pose proof (digits2_pos_upper p) as Hu.
  assert (1024 < Zpos (digits2_pos p)) as Hd
    by (apply (Z.pow_lt_mono_r_iff 2); lia).
  assert (forall mz ez,
            (mz, ez) = (p, 0) ->
            binary_round_aux F64.prec F64.emax s (Zpos mz) ez loc_Exact
            = S754_infinity s) as Haux.
  { intros mz ez H. injection H as -> ->. unfold binary_round_aux.
    destruct (shr_fexp F64.prec F64.emax (Zpos p) 0 loc_Exact)
      as [mrs1 e1] eqn:E1.
    assert (emin F64.prec F64.emax <= 0) as Hemin
      by (unfold emin, F64.prec, F64.emax; lia).
    destruct (shr_fexp_bounds _ _ _ _ _ (Pos2Z.pos_is_pos p) Hemin E1)
      as (Hm1 & He1 & _ & _).
    apply shr_fexp_exponent in E1 as [_ Hlow1]. cbn [Zdigits2] in Hlow1.
    pose proof (round_nearest_even_bounds (shr_m mrs1)
                  (loc_of_shr_record mrs1)) as Hr.
    destruct (shr_fexp F64.prec F64.emax _ e1 loc_Exact) as [mrs2 e2] eqn:E2.
    pose proof (shr_fexp_exponent _ _ _ _ _ E2) as [Hlow2 _].
    apply shr_fexp_bounds in E2 as (Hm2 & _ & _ & _); [| lia | exact He1].
    destruct (shr_m mrs2) as [| q | q]; try lia.
    now replace (e2 <=? F64.emax - F64.prec) with false
      by (symmetry; apply Z.leb_gt; unfold F64.emax, F64.prec; lia). }
  destruct (fexp F64.prec F64.emax (Zpos (digits2_pos p) + 0) - 0)
    as [| d | d] eqn:Hk.
  - now apply Haux.
  - now apply Haux.
  - unfold fexp, emin, F64.prec, F64.emax in Hk. lia.
Qed.

Lemma of_Z_overflow :
  forall n,
    n <= - 2 ^ 1024 \/ 2 ^ 1024 <= n ->
    F64.of_Z n = S754_infinity (n <? 0).
Proof.
  assert (0 < 2 ^ 1024) as Hpos by (apply Z.pow_pos_nonneg; lia).
  intros [| p | p] H; try lia; unfold F64.of_Z, binary_normalize;
    rewrite binary_round_overflow; try reflexivity; lia.
Qed.

Lemma of_Z_small :
  forall n,
    0 < n < 2 ^ 53 ->
    exists m e, F64.of_Z n = S754_finite false m e /\ canonical_integer m e.
Proof.
  intros [| p | p] H; try lia.
  apply binary_round_canonical. lia.
Qed.

(** ** The conversion as the division makes it *)

Lemma float_of_int_inv :
  forall n v, float_of_int n = Ok v -> v = F64.of_Z n.
Proof.
  intros n v. unfold float_of_int.
  destruct (F64.of_Z n); intros H; try discriminate H; now injection H as <-.
Qed.

Lemma float_of_int_raises :
  forall n e,
    float_of_int n = Raise e ->
    e = OverflowError "int too large to convert to float"
    /\ F64.is_finite (F64.of_Z n) = false.
Proof.
  intros n e. unfold float_of_int.
  destruct (F64.of_Z n); intros H; try discriminate H.
  injection H as <-. now split.
Qed.

Lemma float_of_int_returns :
  forall n,
    - 2 ^ 1023 < n < 2 ^ 1023 -> float_of_int n = Ok (F64.of_Z n).
Proof.
  intros n H. apply of_Z_finite in H. unfold float_of_int.
  destruct (F64.of_Z n); try reflexivity. discriminate H.
Qed.

Lemma float_of_int_overflows :
  forall n,
    n <= - 2 ^ 1024 \/ 2 ^ 1024 <= n ->
    float_of_int n = Raise (OverflowError "int too large to convert to float").
Proof.
  intros n H. unfold float_of_int. now rewrite (of_Z_overflow n H).
Qed.

Lemma max_slices_converts :
  forall n, - max_slices <= n <= max_slices -> - 2 ^ 1023 < n < 2 ^ 1023.
Proof.
  intros n H. unfold max_slices in H.
  assert (2 ^ 21 <= 2 ^ 1023) by (apply Z.pow_le_mono_r; lia).
  change (2 ^ 21) with 2097152 in *. lia.
Qed.

(** ** Dividing one small integer by another *)

(** The quotient of two floats with mantissas of 53 digits and exponents
    between -52 and 0 is a finite float: the division neither overflows nor
    underflows. *)
Lemma div_canonical_finite :
  forall sx mx ex sy my ey,
    canonical_integer mx ex -> canonical_integer my ey ->
    exists m e,
      (S754_finite sx mx ex / S754_finite sy my ey)%f64
      = S754_finite (xorb sx sy) m e.
Proof.
  intros sx mx ex sy my ey [Hmx Hex] [Hmy Hey].
  pose proof (digits2_pos_lower mx) as Hxl.
  pose proof (digits2_pos_upper mx) as Hxu.
  pose proof (digits2_pos_lower my) as Hyl.
  pose proof (digits2_pos_upper my) as Hyu.
  rewrite Hmx in Hxl, Hxu. rewrite Hmy in Hyl, Hyu.
  change (2 ^ (53 - 1)) with 4503599627370496 in *.
  change (2 ^ 53) with 9007199254740992 in *.
  unfold F64.div, SFdiv, SFdiv_core_binary. cbn [Zdigits2].
  rewrite Hmx, Hmy.
  replace (Z.min (fexp F64.prec F64.emax (53 + ex - (53 + ey))) (ex - ey))
    with (ex - ey - 53)
    by (unfold fexp, emin, F64.prec, F64.emax; lia).
  replace (ex - ey - (ex - ey - 53)) with 53 by lia.
  rewrite Z.shiftl_mul_pow2 by lia.
  change (2 ^ 53) with 9007199254740992.
  pose proof (Z.div_eucl_eq (Zpos mx * 9007199254740992) (Zpos my)) as Hdiv.
  pose proof (Z.mod_pos_bound (Zpos mx * 9007199254740992) (Zpos my)) as Hmod.
  unfold Z.modulo in Hmod.
  destruct (Z.div_eucl (Zpos mx * 9007199254740992) (Zpos my)) as [q r].
  specialize (Hdiv ltac:(lia)). specialize (Hmod ltac:(lia)).
  assert (4503599627370496 <= q < 2 ^ 54) as Hq.
  { change (2 ^ 54) with 18014398509481984. nia. }
  apply binary_round_aux_finite.
  - lia.
  - unfold emin, F64.prec, F64.emax. lia.
  - assert (Zdigits2 q <= 54) by (apply Zdigits2_upper; lia). lia.
Qed.

(** So is the quotient [i / n] of two integers as [np.linspace] takes it,
    for [0 <= i] and [0 < n] below [2^53]. *)
Lemma of_Z_ratio_finite :
  forall i n,
    0 <= i < 2 ^ 53 -> 0 < n < 2 ^ 53 ->
    F64.is_finite (F64.of_Z i / F64.of_Z n)%f64 = true.
Proof.
  intros i n Hi Hn.
  destruct (of_Z_small n Hn) as (mn & en & -> & Hcn).
  destruct (Z.eq_dec i 0) as [-> | Hne]; [reflexivity |].
  destruct (of_Z_small i) as (mi & ei & -> & Hci); [lia |].
  destruct (div_canonical_finite false mi ei false mn en Hci Hcn)
    as (m & e & ->).
  reflexivity.
Qed.

(** ** Lengths of the arrays the library returns *)

Lemma map2_length :
  forall {A B C} (f : A -> B -> C) a b,
    List.length (map2 f a b) = Nat.min (List.length a) (List.length b).
Proof.
  induction a as [| u a IH]; intros [| v b]; simpl; auto.
Qed.

Lemma removelast_length :
  forall {A} (l : list A), List.length (removelast l) = Nat.pred (List.length l).
Proof.
  intros A l. rewrite removelast_firstn_len, length_firstn. lia.
Qed.

Lemma tl_length :
  forall {A} (l : list A), List.length (tl l) = Nat.pred (List.length l).
Proof.
  intros A [| u l]; reflexivity.
Qed.

Lemma set_last_length :
  forall {A} (l : list A) v, List.length (set_last l v) = List.length l.
Proof.
  induction l as [| u l IH]; intros v; [reflexivity |].
  destruct l as [| w l]; [reflexivity |].
  change (set_last (u :: w :: l) v) with (u :: set_last (w :: l) v).
  change (List.length (u :: set_last (w :: l) v))
    with (S (List.length (set_last (w :: l) v))).
  now rewrite IH.
Qed.

Lemma arange_length : forall num, List.length (arange num) = Z.to_nat num.
Proof.
  intros num. unfold arange. now rewrite length_map, length_seq.
Qed.

Lemma linspace_raises :
  forall start stop num,
    num < 0 ->
    numpy.linspace start stop num
    = Raise (ValueError ("Number of samples, " ++ str_of_int num
                         ++ ", must be non-negative.")).
Proof.
  intros start stop num H. unfold numpy.linspace.
  now replace (num <? 0) with true by (symmetry; now apply Z.ltb_lt).
Qed.

Lemma linspace_returns :
  forall start stop num,
    0 <= num ->
    exists y, numpy.linspace start stop num = Ok y
              /\ List.length y = Z.to_nat num.
Proof.
  intros start stop num H. unfold numpy.linspace.
  replace (num <? 0) with false by (symmetry; now apply Z.ltb_ge).
  eexists. split; [reflexivity |].
  repeat match goal with
         | |- context [if ?c then _ else _] => destruct c
         end;
    now rewrite ?set_last_length, !length_map, arange_length.
Qed.

(** The midpoints of consecutive edges: one fewer than the edges. *)
Lemma centers_length :
  forall edges : list f64,
    List.length (map (fun s => (s / F64.lit_2)%f64)
                     (map2 F64.add (removelast edges) (tl edges)))
    = Nat.pred (List.length edges).
Proof.
  intros edges. rewrite length_map, map2_length, removelast_length, tl_length.
  apply Nat.min_id.
Qed.

Lemma search_sorted_inclusive_length :
  forall a v, List.length (numpy._search_sorted_inclusive a v) = List.length v.
Proof.
  intros a v. unfold numpy._search_sorted_inclusive.
  rewrite length_app, length_map, removelast_length.
  destruct v; simpl; lia.
Qed.

Lemma histogram_raises :
  forall a bins density,
    numpy.edges_decrease bins = true ->
    numpy.histogram a bins density
    = Raise (ValueError "`bins` must increase monotonically, when an array").
Proof.
  intros a bins density H. unfold numpy.histogram.
  now rewrite H.
Qed.

Lemma histogram_returns :
  forall a bins,
    numpy.edges_decrease bins = false ->
    exists counts,
      numpy.histogram a bins true = Ok (counts, bins)
      /\ List.length counts = Nat.pred (List.length bins).
Proof.
  intros a bins H. unfold numpy.histogram.
  rewrite H.
  eexists. split; [reflexivity |].
  rewrite map2_length. unfold numpy.diff_int, numpy.diff.
  rewrite !map2_length, !tl_length, !removelast_length,
    search_sorted_inclusive_length.
  rewrite !Nat.min_id. reflexivity.
Qed.

Lemma interp_returns :
  forall x xp fp,
    xp <> [] ->
    List.length fp = List.length xp ->
    numpy.interp x xp fp = Ok (map (numpy.interp1 xp fp) x).
Proof.
  intros x xp fp Hne Hlen. unfold numpy.interp.
  destruct xp as [| c xp]; [contradiction |].
  rewrite Hlen, Nat.eqb_refl. reflexivity.
Qed.

Lemma interp_raises_on_empty :
  forall x fp,
    numpy.interp x [] fp = Raise (ValueError "array of sample points is empty").
Proof.
  reflexivity.
Qed.

(** Whatever [numpy.interp] returns has one value per interpolation point,
    each a function of that point alone. *)
Lemma interp_pointwise :
  forall x xp fp w,
    numpy.interp x xp fp = Ok w -> w = map (numpy.interp1 xp fp) x.
Proof.
  intros x xp fp w. unfold numpy.interp.
  destruct xp as [| c xp]; [discriminate |].
  destruct (negb _); [discriminate |].
  intros H. now injection H as <-.
Qed.

(** The pipeline raises nothing but the [ValueError]s of the library and,
    once the cuts are there, the [OverflowError] of the conversion of
    [num_slices]. *)
Lemma weights_raise :
  forall zeta num_slices e,
    weights numpy_lib zeta num_slices = Raise e ->
    is_ValueError e
    \/ (is_OverflowError e /\ float_of_int num_slices = Raise e /\ zeta <> []).
Proof.
  intros zeta num_slices e.
  unfold weights, line_density_bins, truediv_int, and_then, numpy_lib;
    cbn [np_max np_min np_linspace np_histogram np_interp bin_edges bin_centers].
  unfold numpy.max, numpy.min.
  destruct zeta as [| z zeta].
  { intros H. injection H as <-. left. eexists. reflexivity. }
  destruct (float_of_int num_slices) as [d | e'] eqn:Hf.
  2:{ intros H. injection H as <-. right.
      destruct (float_of_int_raises _ _ Hf) as [-> _].
      split; [eexists; reflexivity |]. split; [reflexivity | discriminate]. }
  unfold numpy.linspace.
  destruct (num_slices + 1 <? 0).
  { intros H. injection H as <-. left. eexists. reflexivity. }
  cbn [bin_edges bin_centers].
  unfold numpy.histogram.
  destruct (numpy.edges_decrease _).
  { intros H. injection H as <-. left. eexists. reflexivity. }
  cbn [fst]. unfold numpy.interp.
  destruct (map _ (map2 F64.add _ _)).
  { intros H. injection H as <-. left. eexists. reflexivity. }
  destruct (negb _).
  { intros H. injection H as <-. left. eexists. reflexivity. }
  discriminate.
Qed.

(** With an active coordinate, the exception of the conversion is the
    exception of the pipeline. *)
Lemma weights_overflow :
  forall zeta num_slices e,
    zeta <> [] ->
    float_of_int num_slices = Raise e ->
    weights numpy_lib zeta num_slices = Raise e.
Proof.
  intros zeta num_slices e Hne Hf.
  unfold weights, line_density_bins, truediv_int, and_then, numpy_lib;
    cbn [np_max np_min].
  destruct zeta as [| z zeta]; [contradiction |].
  unfold numpy.max, numpy.min. now rewrite Hf.
Qed.

(** ** The pipeline, step by step *)

(** What the binning step returns, when it returns. *)
Lemma line_density_bins_inv :
  forall zeta num_slices bins,
    line_density_bins numpy_lib zeta num_slices = Ok bins ->
    zeta <> []
    /\ 0 <= num_slices + 1
    /\ numpy.max zeta = Ok (z_cut_head bins)
    /\ numpy.min zeta = Ok (z_cut_tail bins)
    /\ slice_width bins
       = ((z_cut_head bins - z_cut_tail bins) / F64.of_Z num_slices)%f64
    /\ numpy.linspace
         (z_cut_tail bins - F64.lit_1em7 * slice_width bins)%f64
         (z_cut_head bins + F64.lit_1em7 * slice_width bins)%f64
         (num_slices + 1) = Ok (bin_edges bins)
    /\ bin_centers bins
       = map (fun s => (s / F64.lit_2)%f64)
             (map2 F64.add (removelast (bin_edges bins)) (tl (bin_edges bins)))
    /\ float_of_int num_slices = Ok (F64.of_Z num_slices).
Proof.
  intros zeta num_slices bins.
  unfold line_density_bins, truediv_int, and_then, numpy_lib;
    cbn [np_max np_min np_linspace].
  destruct (numpy.max zeta) as [head |] eqn:Hmax; [| discriminate].
  destruct (numpy.min zeta) as [tail |] eqn:Hmin; [| discriminate].
  destruct (float_of_int num_slices) as [d |] eqn:Hf; [| discriminate].
  pose proof (float_of_int_inv _ _ Hf) as ->.
  destruct (numpy.linspace _ _ _) as [edges |] eqn:Hlin; [| discriminate].
  intros H. injection H as <-. cbn [z_cut_head z_cut_tail slice_width
    bin_edges bin_centers].
  repeat split; try assumption.
  - intros ->. discriminate Hmax.
  - destruct (Z.ltb_spec (num_slices + 1) 0) as [Hneg | Hpos]; [| assumption].
    rewrite linspace_raises in Hlin by assumption. discriminate Hlin.
Qed.

(** The binning step returns for a non-empty array and a slice count from
    [-1] to [max_slices], with [num_slices + 1] edges. *)
Lemma line_density_bins_returns :
  forall zeta num_slices,
    zeta <> [] ->
    -1 <= num_slices <= max_slices ->
    exists bins,
      line_density_bins numpy_lib zeta num_slices = Ok bins
      /\ List.length (bin_edges bins) = Z.to_nat (num_slices + 1).
Proof.
  intros zeta num_slices Hne Hnum.
  assert (0 <= num_slices + 1) as Hpos by lia.
  unfold line_density_bins, truediv_int, and_then, numpy_lib;
    cbn [np_max np_min np_linspace].
  destruct zeta as [| z zeta]; [contradiction |].
  unfold numpy.max, numpy.min.
  rewrite float_of_int_returns
    by (apply max_slices_converts; unfold max_slices in *; lia).
  match goal with
  | |- context [numpy.linspace ?a ?b ?c] =>
      destruct (linspace_returns a b c Hpos) as [edges [-> Hlen]]
  end.
  eexists. split; [reflexivity | exact Hlen].
Qed.

Lemma weights_inv :
  forall zeta num_slices w,
    weights numpy_lib zeta num_slices = Ok w ->
    exists bins counts,
      line_density_bins numpy_lib zeta num_slices = Ok bins
      /\ numpy.histogram zeta (bin_edges bins) true = Ok (counts, bin_edges bins)
      /\ numpy.interp zeta (bin_centers bins) counts = Ok w.
Proof.
  intros zeta num_slices w. unfold weights, and_then.
  destruct (line_density_bins numpy_lib zeta num_slices) as [bins |];
    [| discriminate].
  cbn [numpy_lib np_histogram np_interp].
  destruct (numpy.edges_decrease (bin_edges bins)) eqn:Hdec.
  - rewrite histogram_raises by assumption. discriminate.
  - destruct (histogram_returns zeta (bin_edges bins) Hdec) as [counts [Hh _]].
    rewrite Hh. cbn [fst]. intros H. exists bins, counts. now repeat split.
Qed.

(** With at least one slice, the weights are returned as soon as the bins
    are built and the edges pass the check of [np.histogram]. *)
Lemma weights_returns :
  forall zeta num_slices bins,
    1 <= num_slices ->
    line_density_bins numpy_lib zeta num_slices = Ok bins ->
    numpy.edges_decrease (bin_edges bins) = false ->
    exists counts,
      numpy.histogram zeta (bin_edges bins) true = Ok (counts, bin_edges bins)
      /\ weights numpy_lib zeta num_slices
         = Ok (map (numpy.interp1 (bin_centers bins) counts) zeta).
Proof.
  intros zeta num_slices bins Hn Hbins Hdec.
  destruct (line_density_bins_inv _ _ _ Hbins)
    as (Hne & Hnum & _ & _ & _ & Hlin & Hcenters & _).
  destruct (linspace_returns
              (z_cut_tail bins - F64.lit_1em7 * slice_width bins)%f64
              (z_cut_head bins + F64.lit_1em7 * slice_width bins)%f64
              (num_slices + 1) Hnum) as [edges [Hlin' Hlen]].
  rewrite Hlin in Hlin'. injection Hlin' as <-.
  destruct (histogram_returns zeta (bin_edges bins) Hdec) as [counts [Hh Hc]].
  exists counts. split; [exact Hh |].
  unfold weights, and_then. rewrite Hbins.
  cbn [numpy_lib np_histogram np_interp]. rewrite Hh. cbn [fst].
  apply interp_returns.
  - intros Hnil. apply (f_equal (@List.length f64)) in Hnil.
    rewrite Hcenters, centers_length, Hlen in Hnil. simpl in Hnil. lia.
  - rewrite Hc, Hcenters, centers_length. reflexivity.
Qed.

(** With no slice, or a negative number of slices, no weights come back. *)
Lemma weights_nonpositive :
  forall zeta num_slices,
    num_slices <= 0 ->
    exists e,
      weights numpy_lib zeta num_slices = Raise e
      /\ (is_ValueError e
          \/ (is_OverflowError e /\ float_of_int num_slices = Raise e
              /\ zeta <> [])).
Proof.
  intros zeta num_slices Hn.
  destruct (weights numpy_lib zeta num_slices) as [w | e] eqn:Hw.
  - exfalso.
    destruct (weights_inv _ _ _ Hw) as (bins & counts & Hbins & _ & Hint).
    destruct (line_density_bins_inv _ _ _ Hbins)
      as (_ & Hnum & _ & _ & _ & Hlin & Hcenters & _).
    destruct (linspace_returns
                (z_cut_tail bins - F64.lit_1em7 * slice_width bins)%f64
                (z_cut_head bins + F64.lit_1em7 * slice_width bins)%f64
                (num_slices + 1) Hnum) as [edges [Hlin' Hlen]].
    rewrite Hlin in Hlin'. injection Hlin' as <-.
    assert (bin_centers bins = []) as Hnil.
    { apply length_zero_iff_nil. rewrite Hcenters, centers_length, Hlen. lia. }
    rewrite Hnil, interp_raises_on_empty in Hint. discriminate Hint.
  - exists e. split; [reflexivity |]. now apply (weights_raise zeta).
Qed.

(** ** The number of slices *)

(** C2, as the claim states it, fails: the constructor takes a zero and a
    negative number of slices without raising, and the zero is refused only
    inside [line_density], by the array library. *)
Lemma nonpositive_num_slices_constructs :
  (exists kick, IBSSimpleKick.__init__ (u "nagaitsev") 0 = Ok kick
                /\ IBSSimpleKick.num_slices kick = 0)
  /\ (exists kick, IBSSimpleKick.__init__ (u "nagaitsev") (-3) = Ok kick
                   /\ IBSSimpleKick.num_slices kick = -3)
  /\ returned (line_density 0)
       (ensemble [particle_at F64.one 1; particle_at F64.lit_2 1])
     = Raise (ValueError "array of sample points is empty").
Proof.
  split; [| split].
  - eexists. split; reflexivity.
  - eexists. split; reflexivity.
  - vm_compute. reflexivity.
Qed.

(** C2, amended: the constructor does not look at [num_slices].  With an
    accepted formalism it constructs the element for every integer, zero and
    negative ones included, and stores the number as given; whether it raises
    does not depend on the number.  A zero or negative number of slices makes
    [line_density] raise on every ensemble and leave the ensemble as it was:
    a [ValueError] of the array library whenever the number is above
    [-2^1023] or the ensemble has no active particle, and the
    [OverflowError] of the division by [num_slices] whenever the number is
    [-2^1024] or below and the ensemble has an active particle; between the
    two bounds it is one of the two. *)
Theorem num_slices_unchecked_at_construction :
  forall (formalism : str) (num_slices : Z),
    (In (lower formalism) IBSSimpleKick.accepted_formalisms ->
       exists kick,
         IBSSimpleKick.__init__ formalism num_slices = Ok kick
         /\ IBSSimpleKick.num_slices kick = num_slices)
    /\ (forall num_slices' : Z,
          is_ok (IBSSimpleKick.__init__ formalism num_slices)
          = is_ok (IBSSimpleKick.__init__ formalism num_slices'))
    /\ (num_slices <= 0 ->
        forall particles : Particles,
        exists e,
          line_density num_slices particles = (Raise e, particles)
          /\ (is_ValueError e \/ is_OverflowError e)
          /\ (- 2 ^ 1023 < num_slices \/ active_zeta particles = [] ->
              is_ValueError e)
          /\ (num_slices <= - 2 ^ 1024 -> active_zeta particles <> [] ->
              is_OverflowError e)).
Proof.
  intros formalism num_slices. split; [| split].
  - intros H. eexists. split; [now apply init_accepts | reflexivity].
  - intros num_slices'. unfold IBSSimpleKick.__init__.
    destruct (negb _); reflexivity.
  - intros Hn particles. rewrite line_density_weights.
    destruct (_context particles). cbn [nplike_lib].
    destruct (weights_nonpositive (active_zeta particles) num_slices Hn)
      as (e & Hw & He).
    exists e. split; [now rewrite Hw |]. split; [| split].
    + destruct He as [He | (He & _)]; [now left | now right].
    + intros Hlow. destruct He as [He | (_ & Hf & Hne)]; [exact He |].
      destruct Hlow as [Hlow | Hnil]; [| contradiction].
      rewrite float_of_int_returns in Hf; [discriminate Hf |].
      assert (0 < 2 ^ 1023) by (apply Z.pow_pos_nonneg; lia). lia.
    + intros Hlow Hne.
      pose proof (float_of_int_overflows num_slices (or_introl Hlow)) as Hf.
      rewrite (weights_overflow _ _ _ Hne Hf) in Hw. injection Hw as <-.
      eexists. reflexivity.
Qed.

(** At minus one the exception is a [ValueError]; at [-10^400], with an
    active particle, an [OverflowError]. *)
Lemma num_slices_unchecked_at_construction_witness :
  (exists kick, IBSSimpleKick.__init__ (u "Nagaitsev") (-1) = Ok kick
                /\ IBSSimpleKick.num_slices kick = -1)
  /\ (exists e,
        line_density (-1) (ensemble [particle_at F64.one 1])
        = (Raise e, ensemble [particle_at F64.one 1])
        /\ is_ValueError e)
  /\ (exists e,
        line_density (- 10 ^ 400) (ensemble [particle_at F64.one 1])
        = (Raise e, ensemble [particle_at F64.one 1])
        /\ is_OverflowError e).
Proof.
  split; [| split].
  - apply (proj1 (num_slices_unchecked_at_construction (u "Nagaitsev") (-1))).
    left. reflexivity.
  - destruct (proj2 (proj2 (num_slices_unchecked_at_construction
                              (u "Nagaitsev") (-1)))
                ltac:(lia) (ensemble [particle_at F64.one 1]))
      as (e & He & _ & Hv & _).
    exists e. split; [exact He |]. apply Hv. left.
    assert (0 < 2 ^ 1023) by (apply Z.pow_pos_nonneg; lia). lia.
  - assert (- 10 ^ 400 <= - 2 ^ 1024) as Hlow
      by (apply Z.leb_le; vm_compute; reflexivity).
    assert (- 10 ^ 400 <= 0) as Hneg
      by (apply Z.leb_le; vm_compute; reflexivity).
    destruct (proj2 (proj2 (num_slices_unchecked_at_construction
                              (u "Nagaitsev") (- 10 ^ 400)))
                Hneg (ensemble [particle_at F64.one 1]))
      as (e & He & _ & _ & Ho).
    exists e. split; [exact He |]. apply Ho; [exact Hlow | discriminate].
Defined.

(** The other exception is there: a number of slices beyond the range of
    binary64, of either sign, stops [line_density] at the division. *)
Lemma num_slices_beyond_binary64 :
  let particles := ensemble [particle_at F64.one 1; particle_at F64.lit_2 1] in
  line_density (- 10 ^ 400) particles
  = (Raise (OverflowError "int too large to convert to float"), particles)
  /\ line_density (10 ^ 400) particles
     = (Raise (OverflowError "int too large to convert to float"), particles).
Proof.
  split; vm_compute; reflexivity.
Qed.

(** ** One weight per active particle *)

Lemma active_zeta_length :
  forall particles,
    List.length (active_zeta particles)
    = List.length (filter is_active (rows particles)).
Proof.
  intros particles. unfold active_zeta. apply length_map.
Qed.

(** What was returned, in full: the bins, the density, the interpolation. *)
Lemma line_density_inv :
  forall particles num_slices w,
    returned (line_density num_slices) particles = Ok w ->
    exists bins counts,
      line_density_bins numpy_lib (active_zeta particles) num_slices = Ok bins
      /\ numpy.histogram (active_zeta particles) (bin_edges bins) true
         = Ok (counts, bin_edges bins)
      /\ bin_centers bins <> []
      /\ List.length counts = List.length (bin_centers bins)
      /\ w = map (numpy.interp1 (bin_centers bins) counts)
                 (active_zeta particles).
Proof.
  intros particles num_slices w. unfold returned.
  rewrite line_density_weights. cbn [fst]. destruct (_context particles).
  cbn [nplike_lib]. intros Hw.
  destruct (weights_inv _ _ _ Hw) as (bins & counts & Hbins & Hh & Hint).
  exists bins, counts. split; [exact Hbins |]. split; [exact Hh |].
  assert (bin_centers bins <> []) as Hne
    by (intros Hnil; rewrite Hnil in Hint; discriminate Hint).
  split; [exact Hne |]. split; [| now apply interp_pointwise].
  unfold numpy.interp in Hint.
  destruct (bin_centers bins) as [| c cs]; [contradiction |].
  destruct (List.length counts =? List.length (c :: cs))%nat eqn:E;
    [now apply Nat.eqb_eq in E | discriminate Hint].
Qed.

(** C5: on an ensemble with at least one active particle, for every number
    of slices, the array [line_density] returns has one weight per active
    particle, in the order of the ensemble: the weight at position [i] is
    the density, interpolated between the bin centers of the call, at the
    coordinate of the [i]-th active particle.  With a number of slices from
    1 to [max_slices] the array is returned unless the edges fail the
    monotonicity check of [np.histogram]. *)
Theorem line_density_one_weight_per_active_particle :
  forall (particles : Particles) (num_slices : Z),
    active_zeta particles <> [] ->
    (forall w,
       returned (line_density num_slices) particles = Ok w ->
       List.length w = List.length (filter is_active (rows particles))
       /\ exists bins counts,
            line_density_bins numpy_lib (active_zeta particles) num_slices
            = Ok bins
            /\ numpy.histogram (active_zeta particles) (bin_edges bins) true
               = Ok (counts, bin_edges bins)
            /\ w = map (fun p => numpy.interp1 (bin_centers bins) counts (zeta p))
                       (filter is_active (rows particles))
            /\ (forall i p,
                  nth_error (filter is_active (rows particles)) i = Some p ->
                  nth_error w i
                  = Some (numpy.interp1 (bin_centers bins) counts (zeta p))))
    /\ (1 <= num_slices <= max_slices ->
        exists bins,
          line_density_bins numpy_lib (active_zeta particles) num_slices = Ok bins
          /\ (numpy.edges_decrease (bin_edges bins) = false ->
              exists w, returned (line_density num_slices) particles = Ok w)).
Proof.
  intros particles num_slices Hne. split.
  - intros w Hw.
    destruct (line_density_inv _ _ _ Hw)
      as (bins & counts & Hbins & Hh & _ & _ & Hmap).
    assert (w = map (fun p => numpy.interp1 (bin_centers bins) counts (zeta p))
                    (filter is_active (rows particles))) as Hw'
      by (rewrite Hmap; unfold active_zeta; now rewrite map_map).
    split.
    + now rewrite Hw', length_map.
    + exists bins, counts. split; [exact Hbins |]. split; [exact Hh |].
      split; [exact Hw' |]. intros i p Hp.
      now rewrite Hw', nth_error_map, Hp.
  - intros Hn.
    destruct (line_density_bins_returns (active_zeta particles) num_slices Hne)
      as [bins [Hbins _]]; [lia |].
    exists bins. split; [assumption |]. intros Hdec.
    destruct (weights_returns _ _ _ (proj1 Hn) Hbins Hdec) as [counts [_ Hw]].
    eexists. unfold returned. rewrite line_density_weights. cbn [fst].
    destruct (_context particles). exact Hw.
Qed.

(** The check can fail: two active particles three subnormal steps apart
    and five slices.  The step rounds up to one subnormal step, the fifth
    point overshoots the end point that replaces the sixth, and
    [np.histogram] refuses the edges. *)
Lemma edges_can_fail_the_check :
  let tiny := S754_finite false 3 (-1074) in
  let particles := ensemble [particle_at F64.zero 1; particle_at tiny 1] in
  (exists bins,
     line_density_bins numpy_lib (active_zeta particles) 5 = Ok bins
     /\ bin_edges bins
        = [F64.zero; S754_finite false 1 (-1074); S754_finite false 2 (-1074);
           S754_finite false 3 (-1074); S754_finite false 4 (-1074); tiny]
     /\ numpy.edges_decrease (bin_edges bins) = true)
  /\ returned (line_density 5) particles
     = Raise (ValueError "`bins` must increase monotonically, when an array").
Proof.
  intros tiny particles. split.
  - eexists. split; [vm_compute; reflexivity |]. split; reflexivity.
  - vm_compute. reflexivity.
Qed.

(** Three active particles among five, at 1, 2 and 2, and two slices: the
    one particle of the lower bin comes first in the ensemble and its
    weight comes first in the array. *)
Lemma line_density_one_weight_per_active_particle_witness :
  let particles :=
    ensemble [particle_at F64.one 1; particle_at F64.zero 0;
              particle_at F64.lit_2 2; particle_at F64.nan (-1);
              particle_at F64.lit_2 1] in
  exists w bins counts,
    returned (line_density 2) particles = Ok w
    /\ List.length w = 3%nat
    /\ line_density_bins numpy_lib (active_zeta particles) 2 = Ok bins
    /\ numpy.histogram (active_zeta particles) (bin_edges bins) true
       = Ok (counts, bin_edges bins)
    /\ nth_error w 0 = Some (numpy.interp1 (bin_centers bins) counts F64.one)
    /\ nth_error w 1 = Some (numpy.interp1 (bin_centers bins) counts F64.lit_2)
    /\ nth_error w 2 = Some (numpy.interp1 (bin_centers bins) counts F64.lit_2).
Proof.
  intros particles.
  assert (active_zeta particles <> []) as Hne by discriminate.
  destruct (line_density_one_weight_per_active_particle particles 2 Hne)
    as [Hlen Hret].
  destruct Hret as [bins0 [Hbins0 Hw]]; [unfold max_slices; lia |].
  destruct Hw as [w Hw].
  - vm_compute in Hbins0. injection Hbins0 as <-. vm_compute. reflexivity.
  - destruct (Hlen w Hw) as (Hl & bins & counts & Hbins & Hh & _ & Hnth).
    exists w, bins, counts. split; [exact Hw |]. split; [exact Hl |].
    split; [exact Hbins |]. split; [exact Hh |].
    split; [| split].
    + exact (Hnth 0%nat (particle_at F64.one 1) eq_refl).
    + exact (Hnth 1%nat (particle_at F64.lit_2 2) eq_refl).
    + exact (Hnth 2%nat (particle_at F64.lit_2 1) eq_refl).
Defined.

(** On these coordinates the weights are about 2/3 and 4/3, the densities
    of one and of two particles in three on bins about half a unit wide;
    with the ensemble reversed, so are the weights. *)
Lemma weights_follow_the_particles :
  let low := S754_finite false 6004798902680771 (-53) in
  let high := S754_finite false 6004798902680769 (-52) in
  returned (line_density 2)
    (ensemble [particle_at F64.one 1; particle_at F64.lit_2 2;
               particle_at F64.lit_2 1])
  = Ok [low; high; high]
  /\ returned (line_density 2)
       (ensemble [particle_at F64.lit_2 1; particle_at F64.lit_2 2;
                  particle_at F64.one 1])
     = Ok [high; high; low].
Proof.
  split; vm_compute; reflexivity.
Qed.

(** ** The element as constructed *)

(** C4: the element the constructor returns is disabled: its scale strength
    is the integer zero, and [kick_coefficients] and [update_every] are
    unset.  Tracking any ensemble through it, whatever the collaborators,
    returns without raising and leaves the whole store as it was: every
    particle (so every momentum) is identical, the cache and the element are
    untouched (nothing recomputed), the generator has not advanced (no draw
    consumed) and nothing is logged. *)
Theorem fresh_kick_is_disabled :
  forall (RandomState : Type)
         (standard_normal : RandomState -> f64 * RandomState)
         (growth_rates :
            str -> option TwissTable -> Particles -> result IBSGrowthRates)
         (_current_turn : Particles -> Z)
         (kick_coefficient : f64 -> Z -> Z -> Z -> f64)
         (formalism : str) (num_slices : Z) (kick : IBSSimpleKick.t)
         (particles : Particles) (generator : RandomState) (log : list string),
    IBSSimpleKick.__init__ formalism num_slices = Ok kick ->
    IBSSimpleKick._scale_strength kick = PyInt 0
    /\ IBSSimpleKick.kick_coefficients kick = None
    /\ IBSSimpleKick.update_every kick = None
    /\ track standard_normal growth_rates _current_turn kick_coefficient
         (fresh_store kick particles generator log)
       = (Ok tt, fresh_store kick particles generator log).
Proof.
  intros RandomState standard_normal growth_rates _current_turn
    kick_coefficient formalism num_slices kick particles generator log Hinit.
  unfold IBSSimpleKick.__init__ in Hinit.
  destruct (negb _); [discriminate Hinit |].
  injection Hinit as <-. repeat split.
Qed.

(** A generator that counts its draws, and collaborators that would raise
    or kick if they were reached. *)
Lemma fresh_kick_is_disabled_witness :
  let standard_normal := fun g : Z => (F64.of_Z g, g + 1) in
  let growth_rates :=
    fun (_ : str) (_ : option TwissTable) (_ : Particles) =>
      @Raise IBSGrowthRates (ValueError "no optics") in
  let particles := ensemble [particle_at F64.one 1; particle_at F64.lit_2 0] in
  exists kick,
    IBSSimpleKick.__init__ (u "nagaitsev") 50 = Ok kick
    /\ track standard_normal growth_rates (fun _ => 0) (fun r _ _ _ => r)
         (fresh_store kick particles 0 [])
       = (Ok tt, fresh_store kick particles 0 []).
Proof.
  intros standard_normal growth_rates particles.
  eexists. split; [reflexivity |].
  refine (proj2 (proj2 (proj2
    (fresh_kick_is_disabled Z standard_normal growth_rates (fun _ => 0)
       (fun r _ _ _ => r) (u "nagaitsev") 50 _ particles 0 [] _)))).
  reflexivity.
Defined.

(** The same element once configured (scale strength one, an update every
    turn) does kick: the active particle moves, the inactive one does not,
    three draws are consumed. *)
Lemma configured_kick_moves_active_particles :
  let standard_normal := fun g : Z => (F64.of_Z (g + 1), g + 1) in
  let growth_rates :=
    fun (_ : str) (_ : option TwissTable) (_ : Particles) =>
      Ok {| Tx := F64.one; Ty := F64.one; Tz := F64.one |} in
  let kick :=
    {| IBSSimpleKick.num_slices := 2;
       IBSSimpleKick.formalism := u "nagaitsev";
       IBSSimpleKick.kick_coefficients := None;
       IBSSimpleKick.update_every := Some 1;
       IBSSimpleKick._name := None;
       IBSSimpleKick._twiss := None;
       IBSSimpleKick._scale_strength := PyInt 1 |} in
  let store :=
    fresh_store kick
      (ensemble [particle_at F64.one 1; particle_at F64.lit_2 0;
                 particle_at (F64.of_Z 3) 1]) 0 [] in
  let out := track standard_normal growth_rates (fun _ => 0) (fun r _ _ _ => r)
               store in
  fst out = Ok tt
  /\ generator (snd out) = 6
  /\ map state (rows (particles (snd out))) = [1; 0; 1]
  /\ nth 1 (rows (particles (snd out))) (particle_at F64.nan 0)
     = particle_at F64.lit_2 0
  /\ px (nth 0 (rows (particles (snd out))) (particle_at F64.nan 0))
     <> F64.zero.
Proof.
  vm_compute. repeat split. discriminate.
Qed.

(** ** The order of binary64 and the cuts *)

Lemma leb_le_prop : forall x y : f64, F64.leb x y = true <-> le_prop x y.
Proof.
  intros x y. unfold F64.leb, SFleb.
  destruct x as [sx | sx | | sx mx ex], y as [sy | sy | | sy my ey];
    cbn [SFcompare le_prop];
    try (destruct sx); try (destruct sy);
    try (split; [intros H; (exact I || discriminate H || reflexivity)
                | intros H; (reflexivity || contradiction || discriminate H)]).
  - rewrite Pos.compare_cont_spec. cbn [Pos.switch_Eq].
    destruct (Z.compare_spec ex ey) as [He | He | He];
      [destruct (Pos.compare_spec mx my) as [Hm | Hm | Hm] | |];
      cbn [CompOpp]; split; intros H; try reflexivity; try discriminate H;
      lia.
  - rewrite Pos.compare_cont_spec. cbn [Pos.switch_Eq].
    destruct (Z.compare_spec ex ey) as [He | He | He];
      [destruct (Pos.compare_spec mx my) as [Hm | Hm | Hm] | |];
      cbn [CompOpp]; split; intros H; try reflexivity; try discriminate H;
      lia.
Qed.

Lemma le_prop_refl : forall x : f64, x <> F64.nan -> le_prop x x.
Proof.
  intros [s | s | | s m e] H; cbn [le_prop]; try (destruct s);
    try exact I; try lia. now contradiction H.
Qed.

Lemma le_prop_trans :
  forall x y z : f64, le_prop x y -> le_prop y z -> le_prop x z.
Proof.
  intros [sx | sx | | sx mx ex] [sy | sy | | sy my ey] [sz | sz | | sz mz ez];
    cbn [le_prop]; try (destruct sx); try (destruct sy); try (destruct sz);
    intros H1 H2; try exact I; try contradiction; try discriminate;
    try reflexivity; lia.
Qed.

Lemma le_prop_total :
  forall x y : f64,
    x <> F64.nan -> y <> F64.nan -> le_prop x y \/ le_prop y x.
Proof.
  intros [sx | sx | | sx mx ex] [sy | sy | | sy my ey] Hx Hy;
    cbn [le_prop]; try (destruct sx); try (destruct sy);
    try (now contradiction Hx); try (now contradiction Hy);
    try (now left); try (now right); lia.
Qed.

Lemma le_prop_not_nan :
  forall x y : f64, le_prop x y -> x <> F64.nan /\ y <> F64.nan.
Proof.
  intros x y H. split; intros ->; destruct x, y; cbn [le_prop] in H;
    try contradiction; try (destruct s; contradiction).
Qed.

(** [y <= x] rules out [x < y]. *)
Lemma le_prop_not_ltb :
  forall x y : f64, le_prop y x -> F64.ltb x y = false.
Proof.
  intros x y H. apply leb_le_prop in H. unfold F64.leb, SFleb in H.
  unfold F64.ltb, SFltb.
  destruct y as [sy | sy | | sy my ey], x as [sx | sx | | sx mx ex];
    cbn [SFcompare] in *; try (destruct sx); try (destruct sy);
    try reflexivity; try discriminate H;
    rewrite Pos.compare_cont_spec in *; cbn [Pos.switch_Eq] in *;
    rewrite (Z.compare_antisym ey ex), (Pos.compare_antisym my mx);
    destruct (ey ?= ex); cbn [CompOpp] in *; try reflexivity;
    try discriminate H;
    destruct (my ?= mx)%positive; cbn [CompOpp] in *; try reflexivity;
    discriminate H.
Qed.

(** [x < y] gives [x <= y]; and of two floats other than NaN, either
    [x < y] or [y <= x]. *)
Lemma ltb_le_prop :
  forall x y : f64, F64.ltb x y = true -> le_prop x y.
Proof.
  intros x y H.
  assert (x <> F64.nan) as Hx by (intros ->; discriminate H).
  assert (y <> F64.nan) as Hy by (intros ->; destruct x; discriminate H).
  destruct (le_prop_total x y Hx Hy) as [Hle | Hle]; [exact Hle |].
  rewrite (le_prop_not_ltb _ _ Hle) in H. discriminate H.
Qed.

Lemma not_ltb_le_prop :
  forall x y : f64,
    x <> F64.nan -> y <> F64.nan -> F64.ltb x y = false -> le_prop y x.
Proof.
  intros x y Hx Hy H. apply leb_le_prop.
  unfold F64.leb, SFleb. unfold F64.ltb, SFltb in H.
  destruct y as [sy | sy | | sy my ey], x as [sx | sx | | sx mx ex];
    cbn [SFcompare] in *; try (destruct sx); try (destruct sy);
    try reflexivity; try discriminate H;
    try (now contradiction Hx); try (now contradiction Hy);
    rewrite Pos.compare_cont_spec in *; cbn [Pos.switch_Eq] in *;
    rewrite (Z.compare_antisym ey ex), (Pos.compare_antisym my mx) in H;
    destruct (ey ?= ex); cbn [CompOpp] in *; try reflexivity;
    try discriminate H;
    destruct (my ?= mx)%positive; cbn [CompOpp] in *; try reflexivity;
    discriminate H.
Qed.

(** A fold of [pick] over an array returns an element of the array that is
    NaN or in relation with every element, when the relation is a preorder
    on the floats other than NaN and the test decides it strictly. *)
Section Extremum.

Variable rel : f64 -> f64 -> Prop.
Variable relb : f64 -> f64 -> bool.
Hypothesis relb_rel : forall a b, relb a b = true -> rel a b.
Hypothesis relb_total :
  forall a b, a <> F64.nan -> b <> F64.nan -> relb a b = false -> rel b a.
Hypothesis rel_refl : forall a, a <> F64.nan -> rel a a.
Hypothesis rel_trans : forall a b c, rel a b -> rel b c -> rel a c.

Lemma fold_pick :
  forall l acc seen,
    In acc seen -> dominates rel acc seen ->
    In (fold_left (pick relb) l acc) (seen ++ l)
    /\ dominates rel (fold_left (pick relb) l acc) (seen ++ l).
Proof.
  induction l as [| y l IH]; intros acc seen Hin Hdom.
  - rewrite app_nil_r. now split.
  - cbn [fold_left].
    replace (seen ++ y :: l) with ((seen ++ [y]) ++ l)
      by (now rewrite <- app_assoc).
    apply IH.
    + unfold pick. destruct (relb acc y || F64.is_nan acc);
        apply in_or_app; [now left | right; now left].
    + unfold pick. destruct (relb acc y) eqn:Hrel; cbn [orb].
      * destruct Hdom as [-> | Hdom]; [now left | right].
        intros z Hz. apply in_app_or in Hz as [Hz | [<- | []]].
        -- now apply Hdom.
        -- now apply relb_rel.
      * destruct (F64.is_nan acc) eqn:Hnan.
        -- left. now destruct acc.
        -- destruct Hdom as [-> | Hdom]; [discriminate Hnan |].
           destruct (F64.is_nan y) eqn:Hy; [left; now destruct y | right].
           assert (y <> F64.nan) as Hy' by (intros ->; discriminate Hy).
           assert (acc <> F64.nan) as Hacc by (intros ->; discriminate Hnan).
           pose proof (relb_total acc y Hacc Hy' Hrel) as Hya.
           intros z Hz. apply in_app_or in Hz as [Hz | Hz].
           ++ apply rel_trans with acc; [exact Hya | now apply Hdom].
           ++ destruct Hz as [<- | []]. now apply rel_refl.
Qed.

Lemma reduce_pick :
  forall x l,
    In (fold_left (pick relb) l x) (x :: l)
    /\ dominates rel (fold_left (pick relb) l x) (x :: l).
Proof.
  intros x l. apply (fold_pick l x [x]).
  - now left.
  - destruct x as [s | s | | s m e] eqn:E; try (now left); right;
      intros z [<- | []]; apply rel_refl; discriminate.
Qed.

End Extremum.

(** [np.max] returns a coordinate of the array that no coordinate exceeds
    (NaN when the array holds one). *)
Lemma max_is_maximum :
  forall zeta head,
    numpy.max zeta = Ok head ->
    In head zeta /\ (forall z, In z zeta -> F64.ltb head z = false).
Proof.
  intros [| x l] head H; [discriminate H |]. injection H as <-.
  destruct (reduce_pick (fun a b => le_prop b a) (fun a b => F64.gtb a b)) with
    (x := x) (l := l) as [Hin Hdom].
  - intros a b. apply ltb_le_prop.
  - intros a b Ha Hb. now apply not_ltb_le_prop.
  - apply le_prop_refl.
  - intros a b c Hab Hbc. now apply le_prop_trans with b.
  - change (pick (fun a b => F64.gtb a b)) with numpy.maximum in *.
    split; [exact Hin |]. intros z Hz.
    destruct Hdom as [-> | Hdom]; [reflexivity |].
    apply le_prop_not_ltb. now apply Hdom.
Qed.

(** [np.min] returns a coordinate of the array that exceeds no coordinate. *)
Lemma min_is_minimum :
  forall zeta tail,
    numpy.min zeta = Ok tail ->
    In tail zeta /\ (forall z, In z zeta -> F64.ltb z tail = false).
Proof.
  intros [| x l] tail H; [discriminate H |]. injection H as <-.
  destruct (reduce_pick le_prop F64.ltb) with (x := x) (l := l)
    as [Hin Hdom].
  - apply ltb_le_prop.
  - intros a b Ha Hb. now apply not_ltb_le_prop.
  - apply le_prop_refl.
  - apply le_prop_trans.
  - change (pick F64.ltb) with numpy.minimum in *.
    split; [exact Hin |]. intros z Hz.
    destruct Hdom as [-> | Hdom]; [now destruct z |].
    apply le_prop_not_ltb. now apply Hdom.
Qed.

(** Of two coordinates that compare equal the reductions keep the later
    one: the cuts of [-0.0, +0.0] are both [+0.0], those of [+0.0, -0.0]
    both [-0.0]. *)
Lemma cuts_of_the_two_zeros :
  numpy.max [S754_zero true; S754_zero false] = Ok (S754_zero false)
  /\ numpy.min [S754_zero true; S754_zero false] = Ok (S754_zero false)
  /\ numpy.max [S754_zero false; S754_zero true] = Ok (S754_zero true)
  /\ numpy.min [S754_zero false; S754_zero true] = Ok (S754_zero true).
Proof.
  repeat split.
Qed.

(** ** Binary64 facts for a bunch of zero length *)

Lemma same_value_refl : forall z : f64, same_value z z.
Proof.
  intros z. now left.
Qed.

Lemma same_value_not_zero :
  forall z a : f64, F64.is_zero z = false -> same_value z a -> a = z.
Proof.
  intros z a Hz [<- | [H _]]; [reflexivity |].
  rewrite H in Hz. discriminate Hz.
Qed.

Lemma sub_diag_finite :
  forall s m e,
    (S754_finite s m e - S754_finite s m e)%f64 = F64.zero.
Proof.
  intros s m e. cbv [F64.sub SFsub]. rewrite Z.sub_diag. reflexivity.
Qed.

Lemma sub_diag_zero_or_nan : forall z : f64, zero_or_nan (z - z)%f64.
Proof.
  intros [s | s | | s m e].
  - left. destruct s; reflexivity.
  - right. destruct s; reflexivity.
  - right. reflexivity.
  - left. now rewrite sub_diag_finite.
Qed.

(** The distance between two cuts that are the same finite coordinate is a
    zero; between two cuts that are the same infinity or NaN it is NaN. *)
Lemma sub_same_value_finite :
  forall z a b : f64,
    F64.is_finite z = true -> same_value z a -> same_value z b ->
    F64.is_zero (a - b)%f64 = true.
Proof.
  intros z a b Hfin Ha Hb.
  destruct z as [sz | sz | | sz m e]; try discriminate Hfin.
  - destruct Ha as [<- | [_ Ha]], Hb as [<- | [_ Hb]];
      try (destruct a as [sa | | |]; try discriminate Ha);
      try (destruct b as [sb | | |]; try discriminate Hb);
      repeat match goal with s : bool |- _ => destruct s end; reflexivity.
  - apply same_value_not_zero in Ha, Hb; try reflexivity. subst a b.
    now rewrite sub_diag_finite.
Qed.

Lemma sub_same_value_not_finite :
  forall z a b : f64,
    F64.is_finite z = false -> same_value z a -> same_value z b ->
    (a - b)%f64 = F64.nan.
Proof.
  intros z a b Hfin Ha Hb.
  destruct z as [sz | sz | | sz m e]; try discriminate Hfin;
    apply same_value_not_zero in Ha, Hb; try reflexivity; subst a b;
    try destruct sz; reflexivity.
Qed.

Lemma div_zero_by_integer :
  forall (w : f64) (n : Z),
    F64.is_zero w = true -> 0 < n < 2 ^ 53 ->
    F64.is_zero (w / F64.of_Z n)%f64 = true.
Proof.
  intros w n Hw Hn. destruct (of_Z_small n Hn) as (m & e & -> & _).
  destruct w; try discriminate Hw. reflexivity.
Qed.

Lemma div_nan_l : forall d : f64, (F64.nan / d)%f64 = F64.nan.
Proof.
  reflexivity.
Qed.

Lemma mul_nan_r : forall a : f64, (a * F64.nan)%f64 = F64.nan.
Proof.
  intros []; reflexivity.
Qed.

Lemma sub_nan_r : forall a : f64, (a - F64.nan)%f64 = F64.nan.
Proof.
  intros []; reflexivity.
Qed.

Lemma add_nan_r : forall a : f64, (a + F64.nan)%f64 = F64.nan.
Proof.
  intros []; reflexivity.
Qed.

Lemma mul_finite_zero :
  forall q w : f64,
    F64.is_finite q = true -> F64.is_zero w = true ->
    F64.is_zero (q * w)%f64 = true.
Proof.
  intros q w Hq Hw. destruct w; try discriminate Hw.
  destruct q; try discriminate Hq; reflexivity.
Qed.

(** Adding or subtracting a zero leaves a coordinate what it is. *)
Lemma sub_zero_same_value :
  forall z a t : f64,
    F64.is_zero t = true -> same_value z a -> same_value z (a - t)%f64.
Proof.
  intros z a t Ht Ha. destruct t as [st | | |]; try discriminate Ht.
  destruct a as [sa | sa | | sa m e].
  - destruct Ha as [-> | [Hz _]]; right; (split; [| destruct sa, st]);
      try reflexivity; assumption.
  - exact Ha.
  - exact Ha.
  - exact Ha.
Qed.

Lemma add_zero_same_value :
  forall z a t : f64,
    F64.is_zero t = true -> same_value z a -> same_value z (a + t)%f64.
Proof.
  intros z a t Ht Ha. destruct t as [st | | |]; try discriminate Ht.
  destruct a as [sa | sa | | sa m e].
  - destruct Ha as [-> | [Hz _]]; right; (split; [| destruct sa, st]);
      try reflexivity; assumption.
  - exact Ha.
  - exact Ha.
  - exact Ha.
Qed.

Lemma zero_add_same_value :
  forall z a t : f64,
    F64.is_zero t = true -> same_value z a -> same_value z (t + a)%f64.
Proof.
  intros z a t Ht Ha. destruct t as [st | | |]; try discriminate Ht.
  destruct a as [sa | sa | | sa m e].
  - destruct Ha as [-> | [Hz _]]; right; (split; [| destruct sa, st]);
      try reflexivity; assumption.
  - exact Ha.
  - exact Ha.
  - exact Ha.
Qed.

Lemma near_sub :
  forall z a b : f64, near z a -> near z b -> zero_or_nan (a - b)%f64.
Proof.
  intros z a b [-> | Ha] Hb; [now right |].
  destruct Hb as [-> | Hb]; [right; apply sub_nan_r |].
  destruct (F64.is_finite z) eqn:Hfin.
  - left. now apply (sub_same_value_finite z).
  - right. now apply (sub_same_value_not_finite z).
Qed.

Lemma compare_refl :
  forall z : f64, z <> F64.nan -> SFcompare z z = Some Eq.
Proof.
  intros [s | s | | s m e] H; try (destruct s; reflexivity).
  - now contradiction H.
  - cbn [SFcompare]. rewrite Z.compare_refl, Pos.compare_cont_refl.
    destruct s; reflexivity.
Qed.

Lemma ltb_irrefl : forall z : f64, F64.ltb z z = false.
Proof.
  intros z. unfold F64.ltb, SFltb.
  destruct z as [s | s | | s m e] eqn:E; try reflexivity;
    rewrite compare_refl; (reflexivity || discriminate).
Qed.

Lemma near_gtb :
  forall z a b : f64, near z a -> near z b -> F64.gtb a b = false.
Proof.
  intros z a b Ha Hb. unfold F64.gtb.
  destruct Ha as [-> | Ha]; [now destruct b |].
  destruct Hb as [-> | Hb]; [reflexivity |].
  destruct Ha as [<- | [Hz Ha]], Hb as [<- | [Hz' Hb]].
  - apply ltb_irrefl.
  - destruct z as [sz | | |]; try discriminate Hz'.
    destruct b as [sb | | |]; try discriminate Hb. reflexivity.
  - destruct z as [sz | | |]; try discriminate Hz.
    destruct a as [sa | | |]; try discriminate Ha. reflexivity.
  - destruct a as [sa | | |]; try discriminate Ha.
    destruct b as [sb | | |]; try discriminate Hb. reflexivity.
Qed.

Lemma In_removelast :
  forall {A} (l : list A) a, In a (removelast l) -> In a l.
Proof.
  induction l as [| c l IH]; intros a H; [contradiction |].
  destruct l as [| w l]; [contradiction |].
  destruct H as [-> | H]; [now left | right; now apply IH].
Qed.

Lemma In_tl : forall {A} (l : list A) a, In a (tl l) -> In a l.
Proof.
  intros A [| c l] a H; [contradiction | now right].
Qed.

Lemma In_map2 :
  forall {A B C} (f : A -> B -> C) a b c,
    In c (map2 f a b) -> exists c1 c2, In c1 a /\ In c2 b /\ c = f c1 c2.
Proof.
  induction a as [| c1 a IH]; intros [| c2 b] c H; try contradiction.
  destruct H as [<- | H].
  - exists c1, c2. repeat split; now left.
  - destruct (IH _ _ H) as (c1' & c2' & H1 & H2 & ->).
    exists c1', c2'. repeat split; now right.
Qed.

Lemma Forall_set_last :
  forall {A} (P : A -> Prop) (l : list A) v,
    P v -> Forall P l -> Forall P (set_last l v).
Proof.
  induction l as [| c l IH]; intros v Hv Hl; [constructor |].
  destruct l as [| w l]; [now constructor |].
  change (set_last (c :: w :: l) v) with (c :: set_last (w :: l) v).
  inversion Hl; subst. constructor; [assumption | now apply IH].
Qed.

(** Edges that are all NaN or the one coordinate pass the check of
    [np.histogram]. *)
Lemma near_edges_pass :
  forall z edges, Forall (near z) edges -> numpy.edges_decrease edges = false.
Proof.
  intros z edges H. unfold numpy.edges_decrease.
  destruct (existsb _ _) eqn:E; [| reflexivity].
  apply existsb_exists in E as [c [Hin Hc]]. subst c.
  apply In_map2 in Hin as (a & b & Ha & Hb & Hab).
  rewrite Forall_forall in H.
  rewrite (near_gtb z a b) in Hab; [discriminate Hab | |].
  - apply H. now apply In_removelast.
  - apply H. now apply In_tl.
Qed.

Lemma In_arange : forall num i, In i (arange num) -> 0 <= i < num.
Proof.
  intros num i H. unfold arange in H.
  apply in_map_iff in H as [k [<- Hk]]. apply in_seq in Hk. lia.
Qed.

(** [np.linspace] for two points or more, point by point. *)
Lemma linspace_unfold :
  forall start stop num,
    2 <= num ->
    numpy.linspace start stop num
    = Ok (set_last (map (linspace_point start stop num) (arange num)) stop).
Proof.
  intros start stop num Hnum. unfold numpy.linspace.
  replace (num <? 0) with false by (symmetry; apply Z.ltb_ge; lia).
  replace (0 <? num - 1) with true by (symmetry; apply Z.ltb_lt; lia).
  replace (1 <? num) with true by (symmetry; apply Z.ltb_lt; lia).
  fold (linspace_step start stop num).
  do 2 f_equal. unfold linspace_point.
  destruct (F64.eqb (linspace_step start stop num) F64.zero);
    now rewrite !map_map.
Qed.

(** [np.linspace] between two ends that are both the finite coordinate [z],
    with up to [2^53] points: the step is a zero, and every point is [z]. *)
Lemma linspace_same_value :
  forall z start stop num y,
    F64.is_finite z = true ->
    same_value z start -> same_value z stop ->
    2 <= num <= 2 ^ 53 ->
    numpy.linspace start stop num = Ok y ->
    Forall (same_value z) y.
Proof.
  intros z start stop num y Hfin Hstart Hstop Hnum Hlin.
  rewrite linspace_unfold in Hlin by lia. injection Hlin as <-.
  apply Forall_set_last; [exact Hstop |].
  apply Forall_forall. intros e He.
  apply in_map_iff in He as [i [<- Hi]]. apply In_arange in Hi.
  pose proof (sub_same_value_finite z stop start Hfin Hstop Hstart) as Hdelta.
  assert (F64.is_zero (linspace_step start stop num) = true) as Hstep
    by (apply div_zero_by_integer; [exact Hdelta | lia]).
  unfold linspace_point.
  replace (F64.eqb (linspace_step start stop num) F64.zero) with true
    by (destruct (linspace_step start stop num) as [s | | |];
        try discriminate Hstep; now destruct s).
  apply zero_add_same_value; [| exact Hstart].
  apply mul_finite_zero; [| exact Hdelta].
  apply of_Z_ratio_finite; lia.
Qed.

(** [np.linspace] from NaN to NaN: every point is NaN. *)
Lemma linspace_nan :
  forall num y,
    numpy.linspace F64.nan F64.nan num = Ok y -> Forall (eq F64.nan) y.
Proof.
  intros num y. unfold numpy.linspace.
  destruct (num <? 0); [discriminate |]. intros H. injection H as <-.
  match goal with
  | |- Forall _ (if _ then set_last ?Y _ else ?Y) =>
      assert (Forall (eq F64.nan) Y) as HY
  end.
  { apply Forall_forall. intros e He.
    apply in_map_iff in He as [c [<- _]]. symmetry. apply add_nan_r. }
  destruct (1 <? num); [now apply Forall_set_last | assumption].
Qed.

(** The cuts of an array are among its coordinates. *)
Lemma cuts_same_value :
  forall z zeta head tail,
    Forall (same_value z) zeta ->
    numpy.max zeta = Ok head -> numpy.min zeta = Ok tail ->
    same_value z head /\ same_value z tail.
Proof.
  intros z zeta head tail Hall Hmax Hmin.
  rewrite Forall_forall in Hall. split; apply Hall.
  - now apply max_is_maximum.
  - now apply min_is_minimum.
Qed.

(** The bins of a bunch of zero length: they are built, both cuts are the
    coordinate, the slice width and the edges are as the coordinate has
    them, and the edges pass the check. *)
Lemma degenerate_bins :
  forall z zeta num_slices,
    1 <= num_slices <= max_slices ->
    zeta <> [] ->
    Forall (same_value z) zeta ->
    exists bins,
      line_density_bins numpy_lib zeta num_slices = Ok bins
      /\ same_value z (z_cut_head bins)
      /\ same_value z (z_cut_tail bins)
      /\ (F64.is_finite z = true ->
          F64.is_zero (slice_width bins) = true
          /\ Forall (same_value z) (bin_edges bins))
      /\ (F64.is_finite z = false ->
          slice_width bins = F64.nan
          /\ Forall (eq F64.nan) (bin_edges bins))
      /\ Forall (near z) (bin_edges bins).
Proof.
  intros z zeta num_slices Hn Hne Hall.
  destruct (line_density_bins_returns zeta num_slices Hne)
    as [bins [Hbins _]]; [lia |].
  exists bins. split; [assumption |].
  destruct (line_density_bins_inv _ _ _ Hbins)
    as (_ & _ & Hmax & Hmin & Hw & Hlin & _).
  destruct (cuts_same_value z zeta _ _ Hall Hmax Hmin) as [Hhead Htail].
  assert (2 ^ 53 = 9007199254740992) as Hpow by reflexivity.
  unfold max_slices in Hn.
  assert (F64.is_finite z = true ->
          F64.is_zero (slice_width bins) = true
          /\ Forall (same_value z) (bin_edges bins)) as Hfinite.
  { intros Hfin.
    assert (F64.is_zero (slice_width bins) = true) as Hzero.
    { rewrite Hw. apply div_zero_by_integer; [| lia].
      now apply (sub_same_value_finite z). }
    split; [exact Hzero |].
    assert (F64.is_zero (F64.lit_1em7 * slice_width bins)%f64 = true) as Hpad
      by (now apply mul_finite_zero).
    apply (linspace_same_value z _ _ _ _ Hfin) with (4 := Hlin).
    - now apply sub_zero_same_value.
    - now apply add_zero_same_value.
    - lia. }
  assert (F64.is_finite z = false ->
          slice_width bins = F64.nan
          /\ Forall (eq F64.nan) (bin_edges bins)) as Hnot.
  { intros Hfin.
    assert (slice_width bins = F64.nan) as Hnan
      by (rewrite Hw, (sub_same_value_not_finite z) by assumption;
          apply div_nan_l).
    split; [exact Hnan |].
    rewrite Hnan, mul_nan_r, sub_nan_r, add_nan_r in Hlin.
    now apply linspace_nan in Hlin. }
  split; [exact Hhead |]. split; [exact Htail |].
  split; [exact Hfinite |]. split; [exact Hnot |].
  destruct (F64.is_finite z) eqn:Hfin.
  - destruct (Hfinite eq_refl) as [_ H].
    apply Forall_impl with (2 := H). intros a Ha. now right.
  - destruct (Hnot eq_refl) as [_ H].
    apply Forall_impl with (2 := H). intros a <-. now left.
Qed.

(** ** The interpolation does not see the sign of a zero *)

Lemma take_while_ext :
  forall {A} (p q : A -> bool) l,
    (forall a, p a = q a) -> take_while p l = take_while q l.
Proof.
  intros A p q l H. induction l as [| a l IH]; [reflexivity |].
  cbn [take_while]. now rewrite H, IH.
Qed.

(** The element at which [take_while] stops fails the test. *)
Lemma take_while_stop :
  forall {A} (p : A -> bool) l d,
    (List.length (take_while p l) < List.length l)%nat ->
    p (nth (List.length (take_while p l)) l d) = false.
Proof.
  intros A p l d. induction l as [| a l IH]; cbn [take_while]; intros H.
  - simpl in H. lia.
  - destruct (p a) eqn:Ha; [| exact Ha].
    cbn [List.length nth] in *. apply IH. lia.
Qed.

Lemma take_while_length :
  forall {A} (p : A -> bool) l,
    (List.length (take_while p l) <= List.length l)%nat.
Proof.
  intros A p l. induction l as [| a l IH]; cbn [take_while]; [lia |].
  destruct (p a); simpl; lia.
Qed.

Lemma compare_zero_sign :
  forall s s' (a : f64),
    F64.ltb (S754_zero s) a = F64.ltb (S754_zero s') a
    /\ F64.gtb (S754_zero s) a = F64.gtb (S754_zero s') a
    /\ F64.geb (S754_zero s) a = F64.geb (S754_zero s') a
    /\ F64.eqb a (S754_zero s) = F64.eqb a (S754_zero s').
Proof.
  intros s s' a. destruct a; repeat split.
Qed.

Lemma linear_search_zero_sign :
  forall s s' dx,
    numpy.linear_search (S754_zero s) dx = numpy.linear_search (S754_zero s') dx.
Proof.
  intros s s' dx. unfold numpy.linear_search.
  rewrite (proj1 (proj2 (compare_zero_sign s s' _))).
  rewrite (proj1 (compare_zero_sign s s' _)).
  rewrite (take_while_ext (fun e => F64.geb (S754_zero s) e)
             (fun e => F64.geb (S754_zero s') e)).
  - reflexivity.
  - intros a. apply compare_zero_sign.
Qed.

(** A zero less a float that is not a zero is the opposite of that float,
    whatever the sign of the zero. *)
Lemma sub_zero_sign :
  forall s s' (a : f64),
    F64.is_zero a = false ->
    (S754_zero s - a)%f64 = (S754_zero s' - a)%f64.
Proof.
  intros s s' a H. destruct a; try discriminate H; reflexivity.
Qed.

(** The sample point after the one the search returns is above the key. *)
Lemma linear_search_next :
  forall key dx,
    numpy.linear_search key dx <> -1 ->
    numpy.linear_search key dx <> Z.of_nat (List.length dx) ->
    numpy.linear_search key dx <> Z.of_nat (List.length dx) - 1 ->
    F64.geb key
      (nth (Z.to_nat (numpy.linear_search key dx + 1)) dx F64.nan) = false.
Proof.
  intros key dx. unfold numpy.linear_search.
  destruct (F64.gtb key (last dx F64.nan)); [intros _ H; now contradiction H |].
  destruct (F64.ltb key (hd F64.nan dx)); [intros H; now contradiction H |].
  intros _ Hlen Hlast.
  destruct dx as [| c dx]; [now contradiction Hlen |].
  cbn [tl] in *.
  pose proof (take_while_length (fun e => F64.geb key e) dx) as Hle.
  set (k := List.length (take_while (fun e => F64.geb key e) dx)) in *.
  replace (Z.to_nat (Z.of_nat k + 1)) with (S k) by lia.
  cbn [nth]. cbn [List.length] in *.
  apply (take_while_stop (fun e => F64.geb key e)). fold k.
  unfold f64 in *. lia.
Qed.

Lemma interp1_zero_sign :
  forall s s' dx dy,
    numpy.interp1 dx dy (S754_zero s) = numpy.interp1 dx dy (S754_zero s').
Proof.
  intros s s' dx dy. unfold numpy.interp1.
  rewrite (linear_search_zero_sign s s').
  rewrite (proj1 (compare_zero_sign s s' _)).
  rewrite (proj1 (proj2 (compare_zero_sign s s' _))).
  destruct (Z.of_nat (List.length dx) =? 1); [reflexivity |].
  cbn [F64.is_nan].
  pose proof (linear_search_next (S754_zero s') dx) as Hnext.
  set (j := numpy.linear_search (S754_zero s') dx) in *.
  destruct (Z.eqb_spec j (-1)) as [| H1]; [reflexivity |].
  destruct (Z.eqb_spec j (Z.of_nat (List.length dx))) as [| H2]; [reflexivity |].
  destruct (Z.eqb_spec j (Z.of_nat (List.length dx) - 1)) as [| H3];
    [reflexivity |].
  specialize (Hnext H1 H2 H3).
  rewrite (proj2 (proj2 (proj2 (compare_zero_sign s s' _)))).
  destruct (F64.eqb (nth (Z.to_nat j) dx F64.nan) (S754_zero s')) eqn:Heq;
    [reflexivity |].
  rewrite (sub_zero_sign s s' (nth (Z.to_nat j) dx F64.nan))
    by (destruct (nth (Z.to_nat j) dx F64.nan); try reflexivity;
        discriminate Heq).
  rewrite (sub_zero_sign s s' (nth (Z.to_nat (j + 1)) dx F64.nan))
    by (destruct (nth (Z.to_nat (j + 1)) dx F64.nan); try reflexivity;
        discriminate Hnext).
  reflexivity.
Qed.

Lemma interp1_same_value :
  forall z a dx dy,
    same_value z a -> numpy.interp1 dx dy a = numpy.interp1 dx dy z.
Proof.
  intros z a dx dy [<- | [Hz Ha]]; [reflexivity |].
  destruct z as [sz | | |]; try discriminate Hz.
  destruct a as [sa | | |]; try discriminate Ha.
  apply interp1_zero_sign.
Qed.

Lemma map_same_value :
  forall z dx dy zeta,
    Forall (same_value z) zeta ->
    map (numpy.interp1 dx dy) zeta
    = repeat (numpy.interp1 dx dy z) (List.length zeta).
Proof.
  intros z dx dy zeta H. induction H as [| a l Ha _ IH]; [reflexivity |].
  cbn [map List.length repeat]. now rewrite IH, (interp1_same_value z a).
Qed.

(** ** A bunch of zero length *)

(** C1, as the claim states it, fails: for two active particles at
    [zeta = 1.0] and two slices the slice width is zero, every bin has width
    zero, the density normalisation divides the counts by these widths, and
    the weights returned are [+Inf, +Inf]. *)
Lemma degenerate_bunch_weights_are_infinite :
  let particles := ensemble [particle_at F64.one 1; particle_at F64.one 1] in
  returned (line_density 2) particles = Ok [F64.inf; F64.inf]
  /\ (exists bins,
        line_density_bins numpy_lib (active_zeta particles) 2 = Ok bins
        /\ slice_width bins = F64.zero
        /\ bin_edges bins = [F64.one; F64.one; F64.one]
        /\ numpy.diff (bin_edges bins) = [F64.zero; F64.zero])
  /\ ~ degenerate_contract particles 2.
Proof.
  intros particles.
  assert (returned (line_density 2) particles = Ok [F64.inf; F64.inf]) as Hret
    by (vm_compute; reflexivity).
  split; [exact Hret | split].
  - eexists. split; [vm_compute; reflexivity |]. repeat split.
  - intros (w & Hw & _ & Hfin). rewrite Hret in Hw. injection Hw as <-.
    inversion Hfin as [| v l Hv _]. discriminate Hv.
Qed.

(** C1, amended: [line_density] has no branch for a zero slice width.  On an
    ensemble with at least one active particle whose active particles all
    sit at the same [zeta] (the two zeros being the same coordinate), with a
    number of slices from 1 to [max_slices], it does not raise, leaves the
    ensemble as it was, and returns a uniform array: one and the same weight
    for every active particle.  Both cuts are the coordinate.  When the
    coordinate is finite the slice width is a zero and every bin edge is the
    coordinate (up to the sign of a zero); when it is an infinity or NaN the
    slice width is NaN and so is every bin edge.  The weight is what
    dividing by the zero bin widths gives; it need not be finite. *)
Theorem degenerate_bunch_gets_uniform_weights :
  forall (particles : Particles) (num_slices : Z) (z : f64),
    1 <= num_slices <= max_slices ->
    active_zeta particles <> [] ->
    Forall (same_value z) (active_zeta particles) ->
    (exists v,
       line_density num_slices particles
       = (Ok (repeat v (List.length (filter is_active (rows particles)))),
          particles))
    /\ (exists bins,
          line_density_bins numpy_lib (active_zeta particles) num_slices = Ok bins
          /\ same_value z (z_cut_head bins)
          /\ same_value z (z_cut_tail bins)
          /\ (F64.is_finite z = true ->
              F64.is_zero (slice_width bins) = true
              /\ Forall (same_value z) (bin_edges bins))
          /\ (F64.is_finite z = false ->
              slice_width bins = F64.nan
              /\ Forall (eq F64.nan) (bin_edges bins))).
Proof.
  intros particles num_slices z Hn Hne Hall.
  destruct (degenerate_bins z _ num_slices Hn Hne Hall)
    as (bins & Hbins & Hhead & Htail & Hfin & Hnot & Hnear).
  split.
  - rewrite line_density_weights, <- active_zeta_length.
    destruct (_context particles). cbn [nplike_lib].
    destruct (weights_returns _ _ _ (proj1 Hn) Hbins (near_edges_pass z _ Hnear))
      as [counts [_ Hweights]].
    exists (numpy.interp1 (bin_centers bins) counts z).
    rewrite Hweights. do 2 f_equal. now apply map_same_value.
  - exists bins. split; [exact Hbins |]. split; [exact Hhead |].
    split; [exact Htail |]. split; [exact Hfin | exact Hnot].
Qed.

(** Two active particles at 1.0 among three, and two at the two zeros. *)
Lemma degenerate_bunch_gets_uniform_weights_witness :
  let particles :=
    ensemble [particle_at F64.one 1; particle_at F64.lit_2 0;
              particle_at F64.one 1] in
  let zeros :=
    ensemble [particle_at (S754_zero true) 1; particle_at (S754_zero false) 1] in
  (exists v, line_density 2 particles = (Ok [v; v], particles))
  /\ (exists v, line_density 40 zeros = (Ok [v; v], zeros)).
Proof.
  intros particles zeros. split.
  - refine (proj1 (degenerate_bunch_gets_uniform_weights particles 2 F64.one
                     _ _ _)).
    + unfold max_slices. lia.
    + discriminate.
    + repeat constructor.
  - refine (proj1 (degenerate_bunch_gets_uniform_weights zeros 40 F64.zero
                     _ _ _)).
    + unfold max_slices. lia.
    + discriminate.
    + constructor; [right; now split |].
      constructor; [left; reflexivity | constructor].
Defined.

(** ** The bin edges and the bin centers *)

Lemma nth_arange :
  forall {A} (g : Z -> A) num i d,
    0 <= i < num -> nth (Z.to_nat i) (map g (arange num)) d = g i.
Proof.
  intros A g num i d H. unfold arange. rewrite map_map.
  rewrite nth_indep with (d' := g (Z.of_nat 0%nat))
    by (rewrite length_map, length_seq; lia).
  rewrite (map_nth (fun k => g (Z.of_nat k))), seq_nth by lia.
  f_equal. lia.
Qed.

Lemma nth_set_last_before :
  forall {A} (l : list A) v d k,
    (S k < List.length l)%nat -> nth k (set_last l v) d = nth k l d.
Proof.
  induction l as [| c l IH]; intros v d k H; [reflexivity |].
  destruct l as [| w l]; [simpl in H; lia |].
  change (set_last (c :: w :: l) v) with (c :: set_last (w :: l) v).
  destruct k as [| k]; [reflexivity |].
  cbn [nth]. apply IH. simpl in *. lia.
Qed.

Lemma nth_set_last_end :
  forall {A} (l : list A) v d,
    l <> [] -> nth (Nat.pred (List.length l)) (set_last l v) d = v.
Proof.
  induction l as [| c l IH]; intros v d H; [contradiction |].
  destruct l as [| w l]; [reflexivity |].
  change (set_last (c :: w :: l) v) with (c :: set_last (w :: l) v).
  change (Nat.pred (List.length (c :: w :: l)))
    with (S (Nat.pred (List.length (w :: l)))).
  cbn [nth]. apply IH. discriminate.
Qed.

(** The points [np.linspace] returns for two points or more. *)
Lemma linspace_points :
  forall start stop num y,
    2 <= num ->
    numpy.linspace start stop num = Ok y ->
    List.length y = Z.to_nat num
    /\ (forall i, 0 <= i < num - 1 ->
          nth (Z.to_nat i) y F64.nan = linspace_point start stop num i)
    /\ nth (Z.to_nat (num - 1)) y F64.nan = stop.
Proof.
  intros start stop num y Hnum Hlin.
  destruct (linspace_returns start stop num) as [y' [Hy' Hlen]]; [lia |].
  rewrite Hlin in Hy'. injection Hy' as <-.
  split; [exact Hlen |].
  rewrite linspace_unfold in Hlin by assumption. injection Hlin as <-.
  assert (List.length (map (linspace_point start stop num) (arange num))
          = Z.to_nat num) as Hlen'
    by (now rewrite length_map, arange_length).
  split.
  - intros i Hi.
    rewrite nth_set_last_before by (rewrite Hlen'; lia).
    apply nth_arange. lia.
  - replace (Z.to_nat (num - 1))
      with (Nat.pred (List.length
                        (map (linspace_point start stop num) (arange num))))
      by (rewrite Hlen'; lia).
    apply nth_set_last_end. intros Hnil.
    rewrite Hnil in Hlen'. simpl in Hlen'. lia.
Qed.

(** Zero steps of a finite step make a zero. *)
Lemma zero_steps :
  forall start stop num,
    2 <= num ->
    F64.is_finite (linspace_step start stop num) = true ->
    exists s,
      (if F64.eqb (linspace_step start stop num) F64.zero
       then (F64.of_Z 0 / F64.of_Z (num - 1)) * (stop - start)
       else F64.of_Z 0 * linspace_step start stop num)%f64
      = S754_zero s.
Proof.
  intros start stop num Hnum Hfin. unfold linspace_step in *.
  change (F64.of_Z 0) with F64.zero.
  destruct (F64.eqb _ _).
  - destruct (of_Z_positive (num - 1)) as [(m & e & Hd) | Hd]; [lia | |];
      rewrite Hd in *;
      destruct (stop - start)%f64 as [sd | sd | | sd md ed];
      cbv [F64.div SFdiv F64.is_finite] in Hfin; try discriminate Hfin;
      cbv [F64.div SFdiv F64.zero F64.mul SFmul]; eexists; reflexivity.
  - destruct ((stop - start) / F64.of_Z (num - 1))%f64 as [sd | sd | | sd md ed];
      try discriminate Hfin; cbv [F64.zero F64.mul SFmul]; eexists; reflexivity.
Qed.

(** The first point is [start] whenever the step is a finite number. *)
Lemma linspace_point_first :
  forall start stop num,
    2 <= num ->
    F64.is_finite (linspace_step start stop num) = true ->
    same_value (linspace_point start stop num 0) start.
Proof.
  intros start stop num Hnum Hfin. unfold linspace_point.
  destruct (zero_steps start stop num Hnum Hfin) as [s ->].
  destruct start as [ss | ss | | ss ms es]; cbv [F64.add SFadd].
  - right. destruct s, ss; now split.
  - now left.
  - now left.
  - now left.
Qed.

Lemma nth_map2 :
  forall {A B C} (f : A -> B -> C) a b k da db dc,
    (k < List.length a)%nat -> (k < List.length b)%nat ->
    nth k (map2 f a b) dc = f (nth k a da) (nth k b db).
Proof.
  induction a as [| c1 a IH]; intros [| c2 b] k da db dc Ha Hb;
    try (simpl in *; lia).
  destruct k as [| k]; [reflexivity |].
  cbn [map2 nth]. apply IH; simpl in *; lia.
Qed.

Lemma nth_removelast :
  forall {A} (l : list A) k d,
    (S k < List.length l)%nat -> nth k (removelast l) d = nth k l d.
Proof.
  induction l as [| c l IH]; intros k d H; [reflexivity |].
  destruct l as [| w l]; [simpl in H; lia |].
  change (removelast (c :: w :: l)) with (c :: removelast (w :: l)).
  destruct k as [| k]; [reflexivity |].
  cbn [nth]. apply IH. simpl in *. lia.
Qed.

Lemma nth_tl :
  forall {A} (l : list A) k d, nth k (tl l) d = nth (S k) l d.
Proof.
  intros A [| c l] k d; [now destruct k | reflexivity].
Qed.

(** Centre [i] is the midpoint of edges [i] and [i + 1]. *)
Lemma nth_centers :
  forall (edges : list f64) k,
    (S k < List.length edges)%nat ->
    nth k (map (fun s => (s / F64.lit_2)%f64)
               (map2 F64.add (removelast edges) (tl edges))) F64.nan
    = ((nth k edges F64.nan + nth (S k) edges F64.nan) / F64.lit_2)%f64.
Proof.
  intros edges k H.
  rewrite nth_indep with (d' := (F64.nan / F64.lit_2)%f64)
    by (rewrite centers_length; lia).
  rewrite (map_nth (fun s => (s / F64.lit_2)%f64)).
  rewrite (nth_map2 F64.add _ _ k F64.nan F64.nan)
    by (rewrite ?removelast_length, ?tl_length; unfold f64 in *; lia).
  now rewrite nth_removelast, nth_tl by assumption.
Qed.

(** C6: with at least one active particle and a number of slices from 1 to
    [max_slices], [line_density] takes for head and tail cut the largest and
    the smallest active coordinate, for slice width their difference over
    [num_slices], and bins the coordinates on exactly [num_slices + 1]
    edges: edge [i] lies [i] equal steps of [(hi - lo) / num_slices] above
    [lo = tail - 1e-7 * width], the first edge being [lo] itself when the
    step is finite, and the last edge is [hi = head + 1e-7 * width].  The
    [num_slices] bin centers are the midpoints of consecutive edges, and
    these edges and centers are the ones the histogram and the
    interpolation are called with. *)
Theorem bin_edges_uniformly_spaced :
  forall (particles : Particles) (num_slices : Z),
    1 <= num_slices <= max_slices ->
    active_zeta particles <> [] ->
    exists bins : Bins,
      let nplike := nplike_lib (_context particles) in
      let zeta := active_zeta particles in
      let lo := (z_cut_tail bins - F64.lit_1em7 * slice_width bins)%f64 in
      let hi := (z_cut_head bins + F64.lit_1em7 * slice_width bins)%f64 in
      let edges := bin_edges bins in
      line_density num_slices particles
      = (and_then (np_histogram nplike zeta edges true) (fun hist =>
           np_interp nplike zeta (bin_centers bins) (fst hist)),
         particles)
      /\ (In (z_cut_head bins) zeta
          /\ forall z, In z zeta -> F64.ltb (z_cut_head bins) z = false)
      /\ (In (z_cut_tail bins) zeta
          /\ forall z, In z zeta -> F64.ltb z (z_cut_tail bins) = false)
      /\ slice_width bins
         = ((z_cut_head bins - z_cut_tail bins) / F64.of_Z num_slices)%f64
      /\ List.length edges = Z.to_nat (num_slices + 1)
      /\ (forall i, 0 <= i < num_slices ->
            nth (Z.to_nat i) edges F64.nan
            = linspace_point lo hi (num_slices + 1) i)
      /\ (F64.is_finite (linspace_step lo hi (num_slices + 1)) = true ->
          same_value (nth 0 edges F64.nan) lo)
      /\ nth (Z.to_nat num_slices) edges F64.nan = hi
      /\ List.length (bin_centers bins) = Z.to_nat num_slices
      /\ (forall i, 0 <= i < num_slices ->
            nth (Z.to_nat i) (bin_centers bins) F64.nan
            = ((nth (Z.to_nat i) edges F64.nan
                + nth (Z.to_nat (i + 1)) edges F64.nan) / F64.lit_2)%f64).
Proof.
  intros particles num_slices Hn Hne.
  destruct (line_density_bins_returns (active_zeta particles) num_slices Hne)
    as [bins [Hbins Hlen]]; [lia |].
  destruct (line_density_bins_inv _ _ _ Hbins)
    as (_ & _ & Hmax & Hmin & Hw & Hlin & Hcenters & _).
  assert (2 <= num_slices + 1) as Hnum by lia.
  destruct (linspace_points _ _ _ _ Hnum Hlin) as (_ & Hpoints & Hlast).
  exists bins. cbv zeta.
  split; [| split; [| split; [| split; [| split; [| split; [| split;
    [| split; [| split]]]]]]]].
  - rewrite line_density_weights. unfold weights, and_then.
    destruct (_context particles). cbn [nplike_lib]. now rewrite Hbins.
  - now apply max_is_maximum.
  - now apply min_is_minimum.
  - exact Hw.
  - exact Hlen.
  - intros i Hi. apply Hpoints. lia.
  - intros Hfin. change 0%nat with (Z.to_nat 0).
    rewrite Hpoints by lia. apply linspace_point_first; [lia | exact Hfin].
  - rewrite <- Hlast. f_equal. lia.
  - rewrite Hcenters, centers_length, Hlen. lia.
  - intros i Hi. rewrite Hcenters.
    replace (Z.to_nat (i + 1)) with (S (Z.to_nat i)) by lia.
    apply nth_centers. rewrite Hlen. lia.
Qed.

(** Three active coordinates 1, 2, 3 and two slices: three edges, the last
    the padded head cut, and two centers. *)
Lemma bin_edges_uniformly_spaced_witness :
  let particles :=
    ensemble [particle_at F64.one 1; particle_at F64.zero 0;
              particle_at (F64.of_Z 3) 1; particle_at F64.lit_2 1] in
  exists bins : Bins,
    z_cut_head bins = F64.of_Z 3
    /\ z_cut_tail bins = F64.one
    /\ slice_width bins = F64.one
    /\ List.length (bin_edges bins) = 3%nat
    /\ List.length (bin_centers bins) = 2%nat
    /\ nth 2 (bin_edges bins) F64.nan
       = (F64.of_Z 3 + F64.lit_1em7 * F64.one)%f64.
Proof.
  intros particles.
  destruct (bin_edges_uniformly_spaced particles 2) as [bins H];
    [unfold max_slices; lia | discriminate |].
  cbv zeta in H.
  destruct H as (_ & [Hhead_in Hhead] & [Htail_in Htail] & Hw & Hlen & _ & _
                 & Hlast & Hclen & _).
  assert (In (F64.of_Z 3) (active_zeta particles)) as Hin3
    by (right; left; reflexivity).
  assert (In F64.one (active_zeta particles)) as Hin1
    by (left; reflexivity).
  assert (z_cut_head bins = F64.of_Z 3) as Hh.
  { specialize (Hhead _ Hin3).
    destruct Hhead_in as [H | [H | [H | []]]]; rewrite <- H in *;
      (reflexivity || (vm_compute in Hhead; discriminate Hhead)). }
  assert (z_cut_tail bins = F64.one) as Ht.
  { specialize (Htail _ Hin1).
    destruct Htail_in as [H | [H | [H | []]]]; rewrite <- H in *;
      (reflexivity || (vm_compute in Htail; discriminate Htail)). }
  assert (slice_width bins = F64.one) as Hs
    by (rewrite Hw, Hh, Ht; vm_compute; reflexivity).
  exists bins. repeat split; try assumption.
  rewrite Hs, Hh in Hlast. exact Hlast.
Defined.

(* ================================================================== *)
(** * Further properties of the module *)
(* ================================================================== *)

(** ** The formalisms the constructor takes *)

(** A string whose lowercase has ASCII code points only is, code point by
    code point, that lowercase up to case: no code point of it vanishes or
    splits in two. *)
Lemma lower_is_case_variant :
  forall s t,
    lower s = t -> Forall (fun c => (c < 128)%N) t -> case_variant s t = true.
Proof.
  induction s as [| c s IH]; intros t Hlow Hascii.
  - now subst t.
  - cbn [lower flat_map] in Hlow. fold (lower s) in Hlow.
    unfold lower_char in Hlow.
    destruct (is_upper c) eqn:Hup.
    + subst t. inversion Hascii; subst. cbn [app case_variant].
      rewrite (IH (lower s)) by (reflexivity || assumption).
      unfold same_char_ignoring_case. rewrite Hup, N.eqb_refl.
      cbn [andb]. now rewrite orb_true_r.
    + destruct (N.eqb_spec c KELVIN_SIGN) as [-> | Hk].
      * subst t. inversion Hascii; subst. cbn [app case_variant].
        now rewrite (IH (lower s)) by (reflexivity || assumption).
      * destruct (N.eqb_spec c CAPITAL_I_WITH_DOT_ABOVE) as [-> | Hi].
        -- subst t. exfalso. inversion Hascii as [| ? ? _ H1]; subst.
           inversion H1 as [| ? ? H2 _]; subst.
           unfold COMBINING_DOT_ABOVE in H2. lia.
        -- subst t. inversion Hascii; subst. cbn [app case_variant].
           rewrite (IH (lower s)) by (reflexivity || assumption).
           unfold same_char_ignoring_case. now rewrite N.eqb_refl.
Qed.

Lemma accepted_formalisms_ascii :
  forall name,
    In name IBSSimpleKick.accepted_formalisms ->
    Forall (fun c => (c < 128)%N) name.
Proof.
  intros name [H | [H | [H | []]]]; subst name;
    repeat constructor.
Qed.

(** X2: the constructor takes exactly the spellings, in any letter case, of
    "nagaitsev", "bjorken-mtingwa" and "b&m", where U+212A KELVIN SIGN,
    whose lowercase is "k", may stand for the letter k: it returns an
    element if and only if the formalism is one of the three names code
    point by code point up to case, whatever the number of slices. *)
Theorem init_takes_exactly_the_case_variants :
  forall (formalism : str) (num_slices : Z),
    (exists kick, IBSSimpleKick.__init__ formalism num_slices = Ok kick)
    <-> (exists name,
           In name IBSSimpleKick.accepted_formalisms
           /\ case_variant formalism name = true).
Proof.
  intros formalism num_slices. split.
  - intros [kick H]. exists (lower formalism).
    assert (In (lower formalism) IBSSimpleKick.accepted_formalisms) as Hin.
    { destruct (str_in (lower formalism) IBSSimpleKick.accepted_formalisms)
        eqn:E.
      - now apply str_in_In.
      - unfold IBSSimpleKick.__init__ in H. rewrite E in H. discriminate H. }
    split; [exact Hin |].
    apply lower_is_case_variant; [reflexivity |].
    now apply accepted_formalisms_ascii.
  - intros (name & Hname & Hcase). eexists. apply init_accepts.
    rewrite (case_variant_lower _ _ Hcase), (accepted_formalisms_lower _ Hname).
    exact Hname.
Qed.

(** A spelling in capitals with the Kelvin sign is taken; "b and m" is
    not. *)
Lemma init_takes_exactly_the_case_variants_witness :
  (exists kick,
     IBSSimpleKick.__init__ (u "BJOR" ++ KELVIN_SIGN :: u "EN-MTINGWA") 50
     = Ok kick)
  /\ ~ (exists kick, IBSSimpleKick.__init__ (u "b and m") 50 = Ok kick).
Proof.
  split.
  - apply (proj2 (init_takes_exactly_the_case_variants
                    (u "BJOR" ++ KELVIN_SIGN :: u "EN-MTINGWA") 50)).
    exists (u "bjorken-mtingwa"). split; [right; left |]; reflexivity.
  - intros H.
    apply (proj1 (init_takes_exactly_the_case_variants (u "b and m") 50)) in H.
    destruct H as (name & [<- | [<- | [<- | []]]] & Hcase);
      discriminate Hcase.
Defined.

(** What the constructor refuses: a name with a letter that only looks the
    same (U+0130, capital I with a dot above, whose lowercase is two code
    points), and a name with a space after it. *)
Lemma formalisms_refused :
  IBSSimpleKick.__init__
    (u "naga" ++ CAPITAL_I_WITH_DOT_ABOVE :: u "tsev") 50
  = Raise AssertionError
  /\ IBSSimpleKick.__init__ (u "nagaitsev ") 50 = Raise AssertionError
  /\ IBSSimpleKick.__init__ (u "") 50 = Raise AssertionError.
Proof.
  repeat split.
Qed.

(** ** Where [line_density] raises *)

Lemma active_zeta_nil :
  forall particles,
    filter is_active (rows particles) = [] <-> active_zeta particles = [].
Proof.
  intros particles. unfold active_zeta. split.
  - now intros ->.
  - intros H. now apply map_eq_nil in H.
Qed.

(** X3: on an ensemble without active particle (empty, or all state flags
    zero or negative) [line_density] raises the [ValueError] of [np.max] on
    an empty array, for every number of slices, and leaves the ensemble as
    it was. *)
Theorem line_density_without_active_particle :
  forall (particles : Particles) (num_slices : Z),
    Forall (fun p => state p <= 0) (rows particles) ->
    line_density num_slices particles
    = (Raise (ValueError
         "zero-size array to reduction operation maximum which has no identity"),
       particles).
Proof.
  intros particles num_slices H.
  assert (active_zeta particles = []) as Hnil.
  { apply active_zeta_nil. induction H as [| p ps Hp _ IH]; [reflexivity |].
    cbn [filter]. unfold is_active at 1.
    rewrite Z.gtb_ltb.
    now replace (0 <? state p) with false by (symmetry; apply Z.ltb_ge; lia). }
  rewrite line_density_weights, Hnil. destruct (_context particles).
  reflexivity.
Qed.

Lemma line_density_without_active_particle_witness :
  let particles := ensemble [particle_at F64.one 0; particle_at F64.lit_2 (-1)] in
  line_density 40 particles
  = (Raise (ValueError
       "zero-size array to reduction operation maximum which has no identity"),
     particles).
Proof.
  intros particles. apply line_density_without_active_particle.
  repeat constructor; simpl; lia.
Defined.

(** X4: with an active particle and a number of slices from [-2] down to
    above [-2^1023], both cuts are computed, the number converts to a float,
    and the exception is the [ValueError] [np.linspace] raises on the
    negative number of samples [num_slices + 1]; the ensemble is as it
    was. *)
Theorem line_density_negative_sample_count :
  forall (particles : Particles) (num_slices : Z),
    active_zeta particles <> [] ->
    - 2 ^ 1023 < num_slices <= -2 ->
    exists head tail,
      numpy.max (active_zeta particles) = Ok head
      /\ numpy.min (active_zeta particles) = Ok tail
      /\ float_of_int num_slices = Ok (F64.of_Z num_slices)
      /\ numpy.linspace
           (tail - F64.lit_1em7 * ((head - tail) / F64.of_Z num_slices))%f64
           (head + F64.lit_1em7 * ((head - tail) / F64.of_Z num_slices))%f64
           (num_slices + 1)
         = Raise (ValueError ("Number of samples, " ++ str_of_int (num_slices + 1)
                              ++ ", must be non-negative."))
      /\ line_density num_slices particles
         = (Raise (ValueError ("Number of samples, "
                               ++ str_of_int (num_slices + 1)
                               ++ ", must be non-negative.")),
            particles).
Proof.
  intros particles num_slices Hne Hn.
  assert (float_of_int num_slices = Ok (F64.of_Z num_slices)) as Hf.
  { apply float_of_int_returns.
    assert (0 < 2 ^ 1023) by (apply Z.pow_pos_nonneg; lia). lia. }
  rewrite line_density_weights. destruct (_context particles).
  cbn [nplike_lib].
  unfold weights, line_density_bins, truediv_int, and_then, numpy_lib;
    cbn [np_max np_min np_linspace].
  destruct (active_zeta particles) as [| z zeta]; [contradiction |].
  unfold numpy.max, numpy.min. rewrite Hf.
  eexists _, _. split; [reflexivity |]. split; [reflexivity |].
  split; [reflexivity |].
  rewrite linspace_raises by lia. split; reflexivity.
Qed.

Lemma line_density_negative_sample_count_witness :
  let particles := ensemble [particle_at F64.one 1; particle_at F64.lit_2 1] in
  line_density (-5) particles
  = (Raise (ValueError "Number of samples, -4, must be non-negative."),
     particles).
Proof.
  intros particles.
  destruct (line_density_negative_sample_count particles (-5))
    as (head & tail & _ & _ & _ & _ & H); [discriminate | |].
  - assert (0 < 2 ^ 1023) by (apply Z.pow_pos_nonneg; lia). lia.
  - exact H.
Defined.

(** X12: with an active particle and a number of slices of magnitude
    [2^1024] or more, of either sign, both cuts are computed and the call
    stops at the division by [num_slices]: the integer does not convert to
    a float, the exception is an [OverflowError], no edge is built, and the
    ensemble is as it was. *)
Theorem line_density_num_slices_beyond_binary64 :
  forall (particles : Particles) (num_slices : Z),
    active_zeta particles <> [] ->
    num_slices <= - 2 ^ 1024 \/ 2 ^ 1024 <= num_slices ->
    exists head tail e,
      numpy.max (active_zeta particles) = Ok head
      /\ numpy.min (active_zeta particles) = Ok tail
      /\ truediv_int (head - tail)%f64 num_slices = Raise e
      /\ is_OverflowError e
      /\ line_density_bins numpy_lib (active_zeta particles) num_slices
         = Raise e
      /\ line_density num_slices particles = (Raise e, particles).
Proof.
  intros particles num_slices Hne Hn.
  pose proof (float_of_int_overflows num_slices Hn) as Hf.
  rewrite line_density_weights. destruct (_context particles).
  cbn [nplike_lib]. rewrite (weights_overflow _ _ _ Hne Hf).
  unfold line_density_bins, truediv_int, and_then, numpy_lib;
    cbn [np_max np_min]. rewrite Hf.
  destruct (active_zeta particles) as [| z zeta]; [contradiction |].
  eexists _, _, _. split; [reflexivity |]. split; [reflexivity |].
  split; [reflexivity |]. split; [eexists; reflexivity |].
  split; reflexivity.
Qed.

Lemma line_density_num_slices_beyond_binary64_witness :
  let particles := ensemble [particle_at F64.one 1; particle_at F64.lit_2 1] in
  exists e,
    line_density (10 ^ 400) particles = (Raise e, particles)
    /\ is_OverflowError e.
Proof.
  intros particles.
  destruct (line_density_num_slices_beyond_binary64 particles (10 ^ 400))
    as (head & tail & e & _ & _ & _ & He & _ & H).
  - discriminate.
  - right. apply Z.leb_le. vm_compute. reflexivity.
  - exists e. split; [exact H | exact He].
Defined.

Lemma short_edges_pass :
  forall edges : list f64,
    (List.length edges <= 1)%nat -> numpy.edges_decrease edges = false.
Proof.
  intros [| a [| b edges]] H; try reflexivity. simpl in H. lia.
Qed.

(** X5: with an active particle and [num_slices] zero or minus one, the
    binning goes through with [num_slices + 1] edges and no bin center, the
    histogram is computed, and the exception is the one [np.interp] raises
    on an empty array of sample points. *)
Theorem line_density_without_bins :
  forall (particles : Particles) (num_slices : Z),
    active_zeta particles <> [] ->
    -1 <= num_slices <= 0 ->
    exists bins counts e,
      line_density_bins numpy_lib (active_zeta particles) num_slices = Ok bins
      /\ List.length (bin_edges bins) = Z.to_nat (num_slices + 1)
      /\ bin_centers bins = []
      /\ numpy.histogram (active_zeta particles) (bin_edges bins) true
         = Ok (counts, bin_edges bins)
      /\ numpy.interp (active_zeta particles) [] counts = Raise e
      /\ line_density num_slices particles = (Raise e, particles).
Proof.
  intros particles num_slices Hne Hn.
  destruct (line_density_bins_returns (active_zeta particles) num_slices Hne)
    as [bins [Hbins Hlen]]; [unfold max_slices; lia |].
  destruct (line_density_bins_inv _ _ _ Hbins)
    as (_ & _ & _ & _ & _ & _ & Hc & _).
  assert (bin_centers bins = []) as Hnil.
  { apply length_zero_iff_nil. rewrite Hc, centers_length, Hlen. lia. }
  destruct (histogram_returns (active_zeta particles) (bin_edges bins))
    as [counts [Hh _]].
  { apply short_edges_pass. rewrite Hlen. lia. }
  exists bins, counts, (ValueError "array of sample points is empty").
  split; [exact Hbins |]. split; [exact Hlen |]. split; [exact Hnil |].
  split; [exact Hh |]. split; [apply interp_raises_on_empty |].
  rewrite line_density_weights. destruct (_context particles).
  cbn [nplike_lib]. unfold weights, and_then. rewrite Hbins.
  cbn [numpy_lib np_histogram np_interp]. rewrite Hh. cbn [fst].
  now rewrite Hnil.
Qed.

Lemma line_density_without_bins_witness :
  let particles := ensemble [particle_at F64.one 1; particle_at F64.lit_2 1] in
  exists e, line_density 0 particles = (Raise e, particles).
Proof.
  intros particles.
  destruct (line_density_without_bins particles 0)
    as (bins & counts & e & _ & _ & _ & _ & _ & H); [discriminate | lia |].
  exists e. exact H.
Defined.

(** X6: with an active particle and a number of slices from 1 to
    [max_slices], the bins are always built, and nothing but the
    monotonicity check of [np.histogram] can stop the call: weights are
    returned if and only if no edge exceeds the next, and otherwise the
    exception is that of the check. *)
Theorem line_density_returns_iff_edges_pass :
  forall (particles : Particles) (num_slices : Z),
    active_zeta particles <> [] ->
    1 <= num_slices <= max_slices ->
    exists bins,
      line_density_bins numpy_lib (active_zeta particles) num_slices = Ok bins
      /\ ((exists w, returned (line_density num_slices) particles = Ok w)
          <-> numpy.edges_decrease (bin_edges bins) = false)
      /\ (numpy.edges_decrease (bin_edges bins) = true ->
          line_density num_slices particles
          = (Raise (ValueError
               "`bins` must increase monotonically, when an array"),
             particles)).
Proof.
  intros particles num_slices Hne Hn.
  destruct (line_density_bins_returns (active_zeta particles) num_slices Hne)
    as [bins [Hbins _]]; [lia |].
  exists bins. split; [exact Hbins |].
  assert (numpy.edges_decrease (bin_edges bins) = true ->
          line_density num_slices particles
          = (Raise (ValueError
               "`bins` must increase monotonically, when an array"),
             particles)) as Hfail.
  { intros Hdec. rewrite line_density_weights. destruct (_context particles).
    cbn [nplike_lib]. unfold weights, and_then. rewrite Hbins.
    cbn [numpy_lib np_histogram]. now rewrite histogram_raises. }
  split; [split |].
  - intros [w Hw].
    destruct (numpy.edges_decrease (bin_edges bins)) eqn:Hdec; [| reflexivity].
    unfold returned in Hw. rewrite Hfail in Hw by reflexivity.
    discriminate Hw.
  - intros Hdec.
    destruct (weights_returns _ _ _ (proj1 Hn) Hbins Hdec) as [counts [_ Hw]].
    eexists. unfold returned. rewrite line_density_weights. cbn [fst].
    destruct (_context particles). exact Hw.
  - exact Hfail.
Qed.

Lemma line_density_returns_iff_edges_pass_witness :
  let particles := ensemble [particle_at F64.one 1; particle_at F64.lit_2 1] in
  exists bins,
    line_density_bins numpy_lib (active_zeta particles) 3 = Ok bins
    /\ ((exists w, returned (line_density 3) particles = Ok w)
        <-> numpy.edges_decrease (bin_edges bins) = false).
Proof.
  intros particles.
  destruct (line_density_returns_iff_edges_pass particles 3)
    as (bins & Hbins & Hiff & _); [discriminate | unfold max_slices; lia |].
  exists bins. split; [exact Hbins | exact Hiff].
Defined.

(** ** What the weights depend on *)

(** The histogram that was returned is the density of the counts. *)
Lemma histogram_inv :
  forall a bins counts bins',
    numpy.histogram a bins true = Ok (counts, bins') ->
    numpy.edges_decrease bins = false
    /\ bins' = bins
    /\ List.length counts = Nat.pred (List.length bins)
    /\ counts
       = map2 (fun ni dbi =>
                 ((F64.of_Z ni / dbi)
                  / F64.of_Z (Zsum (numpy.diff_int
                                      (numpy._search_sorted_inclusive a bins))))%f64)
              (numpy.diff_int (numpy._search_sorted_inclusive a bins))
              (numpy.diff bins).
Proof.
  intros a bins counts bins' H.
  destruct (numpy.edges_decrease bins) eqn:Hdec.
  - rewrite histogram_raises in H by assumption. discriminate H.
  - destruct (histogram_returns a bins Hdec) as [counts' [Hh Hlen]].
    rewrite Hh in H. injection H as <- <-.
    repeat split; try assumption.
    unfold numpy.histogram in Hh. rewrite Hdec in Hh. now injection Hh as <-.
Qed.

(** With one sample point the interpolation is constant. *)
Lemma interp1_single :
  forall dx c x, List.length dx = 1%nat -> numpy.interp1 dx [c] x = c.
Proof.
  intros dx c x H. unfold numpy.interp1. rewrite H. cbn [Z.of_nat Z.eqb
    Pos.of_succ_nat Pos.eqb hd last nth Z.to_nat].
  destruct (F64.ltb _ _); [reflexivity |].
  destruct (F64.gtb _ _); reflexivity.
Qed.

(** X7: with a single slice every weight [line_density] returns is the
    same: one bin holds one density value, and the interpolation on the one
    bin center gives that value to every active particle. *)
Theorem single_slice_weights_are_uniform :
  forall (particles : Particles) (w : list f64),
    returned (line_density 1) particles = Ok w ->
    exists v,
      w = repeat v (List.length (filter is_active (rows particles))).
Proof.
  intros particles w Hw.
  destruct (line_density_inv _ _ _ Hw)
    as (bins & counts & Hbins & Hh & Hne & Hlen & ->).
  destruct (line_density_bins_inv _ _ _ Hbins)
    as (_ & _ & _ & _ & _ & Hlin & Hc & _).
  destruct (linspace_returns
              (z_cut_tail bins - F64.lit_1em7 * slice_width bins)%f64
              (z_cut_head bins + F64.lit_1em7 * slice_width bins)%f64
              (1 + 1)) as [edges [Hlin' Hedges]]; [lia |].
  rewrite Hlin in Hlin'. injection Hlin' as <-.
  assert (List.length (bin_centers bins) = 1%nat) as Hone
    by (rewrite Hc, centers_length, Hedges; reflexivity).
  rewrite Hone in Hlen.
  destruct counts as [| c [| c' counts]]; try discriminate Hlen.
  exists c. rewrite <- active_zeta_length, <- map_const.
  apply map_ext. intros x. now apply interp1_single.
Qed.

Lemma single_slice_weights_are_uniform_witness :
  let particles :=
    ensemble [particle_at F64.one 1; particle_at F64.lit_2 1;
              particle_at (F64.of_Z 3) 1] in
  exists v, returned (line_density 1) particles = Ok [v; v; v].
Proof.
  intros particles.
  assert (exists w, returned (line_density 1) particles = Ok w) as [w Hw]
    by (eexists; vm_compute; reflexivity).
  destruct (single_slice_weights_are_uniform particles w Hw) as [v Hv].
  exists v. rewrite Hw, Hv. reflexivity.
Defined.

(** X8: the weight of a particle is a matter of its own coordinate: in the
    array [line_density] returns, two active particles with the same [zeta]
    have the same weight. *)
Theorem equal_coordinates_get_equal_weights :
  forall (particles : Particles) (num_slices : Z) (w : list f64)
         (i j : nat) (z : f64),
    returned (line_density num_slices) particles = Ok w ->
    nth_error (active_zeta particles) i = Some z ->
    nth_error (active_zeta particles) j = Some z ->
    exists v, nth_error w i = Some v /\ nth_error w j = Some v.
Proof.
  intros particles num_slices w i j z Hw Hi Hj.
  destruct (line_density_inv _ _ _ Hw) as (bins & counts & _ & _ & _ & _ & ->).
  exists (numpy.interp1 (bin_centers bins) counts z).
  now rewrite !nth_error_map, Hi, Hj.
Qed.

Lemma equal_coordinates_get_equal_weights_witness :
  let particles :=
    ensemble [particle_at F64.one 1; particle_at (F64.of_Z 3) 1;
              particle_at F64.lit_2 0; particle_at F64.one 2] in
  exists w v,
    returned (line_density 2) particles = Ok w
    /\ nth_error w 0 = Some v /\ nth_error w 2 = Some v.
Proof.
  intros particles.
  assert (exists w, returned (line_density 2) particles = Ok w) as [w Hw]
    by (eexists; vm_compute; reflexivity).
  destruct (equal_coordinates_get_equal_weights particles 2 w 0 2 F64.one Hw)
    as [v [H0 H2]]; [reflexivity | reflexivity |].
  exists w, v. split; [exact Hw | split; [exact H0 | exact H2]].
Defined.

(** ** Weights that are not numbers *)

Lemma div_by_zero_or_nan :
  forall x d : f64, zero_or_nan d -> F64.is_finite (x / d)%f64 = false.
Proof.
  intros x d [Hd | ->].
  - destruct d as [s | | |]; try discriminate Hd.
    destruct x; reflexivity.
  - destruct x; reflexivity.
Qed.

Lemma div_not_finite :
  forall a y : f64,
    F64.is_finite a = false -> F64.is_finite (a / y)%f64 = false.
Proof.
  intros a y H. destruct a; try discriminate H; destruct y; reflexivity.
Qed.

Lemma add_not_finite :
  forall a d : f64,
    F64.is_finite d = false -> F64.is_finite (a + d)%f64 = false.
Proof.
  intros a d H. destruct d as [| sd | |]; try discriminate H.
  - destruct a as [| sa | |]; try reflexivity. destruct sa, sd; reflexivity.
  - destruct a; reflexivity.
Qed.

(** The interpolation stays within any class of floats that holds NaN and
    the sample values and is closed under adding on the left. *)
Lemma interp1_closed :
  forall (P : f64 -> Prop) dx dy x,
    P F64.nan ->
    (forall a d, P d -> P (a + d)%f64) ->
    Forall P dy ->
    P (numpy.interp1 dx dy x).
Proof.
  intros P dx dy x Hnan Hadd Hdy.
  assert (forall k, P (nth k dy F64.nan)) as Hnth.
  { intros k. destruct (nth_in_or_default k dy F64.nan) as [Hin | ->];
      [| exact Hnan].
    rewrite Forall_forall in Hdy. now apply Hdy. }
  assert (P (hd F64.nan dy)) as Hhd
    by (destruct dy as [| d dy]; [exact Hnan | now inversion Hdy]).
  assert (P (last dy F64.nan)) as Hlast.
  { clear Hnth Hhd. induction dy as [| d dy IH]; [exact Hnan |].
    inversion Hdy; subst. destruct dy as [| d' dy]; [assumption |].
    now apply IH. }
  unfold numpy.interp1.
  repeat match goal with
         | |- P (if ?c then _ else _) => destruct c eqn:?
         end;
    try exact Hhd; try exact Hlast; try apply Hnth; try (apply Hadd, Hnth).
  destruct x; try discriminate. exact Hnan.
Qed.

(** In a zero-length bunch every density value is a division by a zero bin
    width. *)
Lemma degenerate_counts_not_finite :
  forall z a bins counts,
    Forall (near z) bins ->
    numpy.histogram a bins true = Ok (counts, bins) ->
    Forall (fun d => F64.is_finite d = false) counts.
Proof.
  intros z a bins counts Hnear Hh.
  destruct (histogram_inv _ _ _ _ Hh) as (_ & _ & _ & ->).
  apply Forall_forall. intros d Hd.
  apply In_map2 in Hd as (ni & dbi & _ & Hdb & ->).
  apply div_not_finite, div_by_zero_or_nan.
  unfold numpy.diff in Hdb.
  apply In_map2 in Hdb as (c1 & c2 & H1 & H2 & ->).
  rewrite Forall_forall in Hnear.
  apply (near_sub z); apply Hnear; [now apply In_tl | now apply In_removelast].
Qed.

(** X9: on an ensemble with at least one active particle whose active
    particles all sit at the same [zeta] (the two zeros being the same
    coordinate), with a number of slices from 1 to [max_slices], the one
    weight [line_density] returns for every active particle is never a
    finite number: it is an infinity or NaN, whatever the coordinate and
    the number of particles. *)
Theorem degenerate_bunch_weight_is_never_finite :
  forall (particles : Particles) (num_slices : Z) (z : f64),
    1 <= num_slices <= max_slices ->
    active_zeta particles <> [] ->
    Forall (same_value z) (active_zeta particles) ->
    exists v,
      line_density num_slices particles
      = (Ok (repeat v (List.length (filter is_active (rows particles)))),
         particles)
      /\ F64.is_finite v = false.
Proof.
  intros particles num_slices z Hn Hne Hall.
  destruct (degenerate_bins z _ num_slices Hn Hne Hall)
    as (bins & Hbins & _ & _ & _ & _ & Hnear).
  destruct (weights_returns _ _ _ (proj1 Hn) Hbins (near_edges_pass z _ Hnear))
    as [counts [Hh Hweights]].
  exists (numpy.interp1 (bin_centers bins) counts z). split.
  - rewrite line_density_weights, <- active_zeta_length.
    destruct (_context particles). cbn [nplike_lib].
    rewrite Hweights. do 2 f_equal. now apply map_same_value.
  - apply (interp1_closed (fun d => F64.is_finite d = false)).
    + reflexivity.
    + apply add_not_finite.
    + now apply (degenerate_counts_not_finite z (active_zeta particles)
                   (bin_edges bins)).
Qed.

(** Two active particles at 7.0 among three, and two at the two zeros. *)
Lemma degenerate_bunch_weight_is_never_finite_witness :
  let particles :=
    ensemble [particle_at (F64.of_Z 7) 1; particle_at (F64.of_Z 7) 3;
              particle_at F64.one 0] in
  let zeros :=
    ensemble [particle_at (S754_zero false) 1; particle_at (S754_zero true) 1] in
  (exists v,
     line_density 40 particles = (Ok [v; v], particles)
     /\ F64.is_finite v = false)
  /\ (exists v,
        line_density 2 zeros = (Ok [v; v], zeros)
        /\ F64.is_finite v = false).
Proof.
  intros particles zeros. split.
  - refine (degenerate_bunch_weight_is_never_finite particles 40 (F64.of_Z 7)
              _ _ _).
    + unfold max_slices. lia.
    + discriminate.
    + repeat constructor.
  - refine (degenerate_bunch_weight_is_never_finite zeros 2 F64.zero _ _ _).
    + unfold max_slices. lia.
    + discriminate.
    + constructor; [left; reflexivity |].
      constructor; [right; now split | constructor].
Defined.

Lemma of_Z_nonnegative :
  forall i,
    0 <= i ->
    F64.of_Z i = F64.zero
    \/ (exists m e, F64.of_Z i = S754_finite false m e)
    \/ F64.of_Z i = S754_infinity false.
Proof.
  intros i Hi. destruct (Z.eq_dec i 0) as [-> | Hne]; [now left | right].
  apply of_Z_positive. lia.
Qed.

Lemma Forall_removelast_set_last :
  forall {A} (P : A -> Prop) (l : list A) v,
    Forall P l -> Forall P (removelast (set_last l v)).
Proof.
  induction l as [| c l IH]; intros v H; [constructor |].
  destruct l as [| w l]; [constructor |].
  change (set_last (c :: w :: l) v) with (c :: set_last (w :: l) v).
  inversion H; subst.
  assert (set_last (w :: l) v <> []) as Hne.
  { intros Hnil. apply (f_equal (@List.length A)) in Hnil.
    rewrite set_last_length in Hnil. discriminate Hnil. }
  destruct (set_last (w :: l) v) as [| a rest] eqn:E; [contradiction |].
  change (removelast (c :: a :: rest)) with (c :: removelast (a :: rest)).
  constructor; [assumption |]. rewrite <- E. now apply IH.
Qed.

(** The padding and the two ends when the slice width is not finite. *)
Lemma padding_not_finite :
  forall w : f64,
    F64.is_finite w = false ->
    exists s, inf_or_nan s (F64.lit_1em7 * w)%f64.
Proof.
  intros [| sw | |] H; try discriminate H.
  - exists sw. right. destruct sw; reflexivity.
  - exists false. now left.
Qed.

Lemma low_end_not_finite :
  forall s tail t, inf_or_nan s t -> inf_or_nan (negb s) (tail - t)%f64.
Proof.
  intros s tail t [-> | ->].
  - left. destruct tail; reflexivity.
  - destruct tail as [st | st | | st m e]; cbv [F64.sub SFsub];
      try (now right); try (now left).
    destruct st, s; (now left) || (now right).
Qed.

Lemma high_end_not_finite :
  forall s head t, inf_or_nan s t -> inf_or_nan s (head + t)%f64.
Proof.
  intros s head t [-> | ->].
  - left. destruct head; reflexivity.
  - destruct head as [sh | sh | | sh m e]; cbv [F64.add SFadd];
      try (now right); try (now left).
    destruct sh, s; (now left) || (now right).
Qed.

Lemma span_not_finite :
  forall s hi lo,
    inf_or_nan s hi -> inf_or_nan (negb s) lo -> inf_or_nan s (hi - lo)%f64.
Proof.
  intros s hi lo [-> | ->] [-> | ->]; try (now left).
  destruct s; now right.
Qed.

Lemma step_not_finite :
  forall s delta n,
    0 < n -> inf_or_nan s delta -> inf_or_nan s (delta / F64.of_Z n)%f64.
Proof.
  intros s delta n Hn [-> | ->].
  - now left.
  - destruct (of_Z_positive n Hn) as [(m & e & ->) | ->].
    + right. destruct s; reflexivity.
    + now left.
Qed.

Lemma steps_not_finite :
  forall s step i,
    0 <= i -> inf_or_nan s step -> inf_or_nan s (F64.of_Z i * step)%f64.
Proof.
  intros s step i Hi [-> | ->].
  - left. destruct (F64.of_Z i); reflexivity.
  - destruct (of_Z_nonnegative i Hi) as [-> | [(m & e & ->) | ->]].
    + now left.
    + right. destruct s; reflexivity.
    + right. destruct s; reflexivity.
Qed.

Lemma opposite_infinities_cancel :
  forall s a b,
    inf_or_nan s a -> inf_or_nan (negb s) b -> (a + b)%f64 = F64.nan.
Proof.
  intros s a b [-> | ->] [-> | ->]; try reflexivity;
    destruct s; reflexivity.
Qed.

Lemma inf_or_nan_not_zero :
  forall s x, inf_or_nan s x -> F64.eqb x F64.zero = false.
Proof.
  intros s x [-> | ->]; [reflexivity | destruct s; reflexivity].
Qed.

(** Every point [np.linspace] computes is NaN when the slice width is not
    finite: the steps from the low end are infinite, the low end is the
    opposite infinity. *)
Lemma poisoned_point :
  forall head tail w num i,
    F64.is_finite w = false ->
    2 <= num -> 0 <= i ->
    linspace_point (tail - F64.lit_1em7 * w)%f64 (head + F64.lit_1em7 * w)%f64
                   num i
    = F64.nan.
Proof.
  intros head tail w num i Hw Hnum Hi.
  destruct (padding_not_finite w Hw) as [s Ht].
  pose proof (low_end_not_finite s tail _ Ht) as Hlo.
  pose proof (high_end_not_finite s head _ Ht) as Hhi.
  pose proof (span_not_finite s _ _ Hhi Hlo) as Hdelta.
  assert (inf_or_nan s
            (linspace_step (tail - F64.lit_1em7 * w)%f64
                           (head + F64.lit_1em7 * w)%f64 num)) as Hstep
    by (apply step_not_finite; [lia | exact Hdelta]).
  unfold linspace_point.
  rewrite (inf_or_nan_not_zero s _ Hstep).
  apply (opposite_infinities_cancel s); [| exact Hlo].
  now apply steps_not_finite.
Qed.

(** When the slice width is not finite all edges but the last are NaN, the
    check passes, every bin width and with it every density value is NaN,
    and so is every weight. *)
Lemma not_finite_width_weights :
  forall zeta num_slices bins,
    1 <= num_slices ->
    line_density_bins numpy_lib zeta num_slices = Ok bins ->
    F64.is_finite (slice_width bins) = false ->
    Forall (eq F64.nan) (removelast (bin_edges bins))
    /\ weights numpy_lib zeta num_slices
       = Ok (repeat F64.nan (List.length zeta)).
Proof.
  intros zeta num_slices bins Hn Hbins Hw.
  destruct (line_density_bins_inv _ _ _ Hbins)
    as (_ & _ & _ & _ & _ & Hlin & _).
  rewrite linspace_unfold in Hlin by lia.
  injection Hlin as Hedges.
  assert (Forall (eq F64.nan) (removelast (bin_edges bins))) as Hnan.
  { rewrite <- Hedges. apply Forall_removelast_set_last.
    apply Forall_forall. intros e He.
    apply in_map_iff in He as [i [<- Hi]]. apply In_arange in Hi.
    symmetry. apply poisoned_point; [exact Hw | lia | lia]. }
  split; [exact Hnan |].
  rewrite Forall_forall in Hnan.
  assert (numpy.edges_decrease (bin_edges bins) = false) as Hdec.
  { unfold numpy.edges_decrease.
    destruct (existsb _ _) eqn:E; [| reflexivity].
    apply existsb_exists in E as [c [Hin Hc]]. subst c.
    apply In_map2 in Hin as (a & b & Ha & _ & Hab).
    rewrite <- (Hnan a Ha) in Hab. destruct b; discriminate Hab. }
  destruct (weights_returns _ _ _ Hn Hbins Hdec) as [counts [Hh Hweights]].
  rewrite Hweights.
  f_equal. rewrite <- map_const. apply map_ext. intros x.
  apply (interp1_closed (fun d => d = F64.nan)).
  - reflexivity.
  - intros a d ->. apply add_nan_r.
  - destruct (histogram_inv _ _ _ _ Hh) as (_ & _ & _ & ->).
    apply Forall_forall. intros d Hd.
    apply In_map2 in Hd as (ni & dbi & _ & Hdb & ->).
    unfold numpy.diff in Hdb.
    apply In_map2 in Hdb as (c1 & c2 & _ & H2 & ->).
    rewrite <- (Hnan c2 H2), sub_nan_r.
    destruct (F64.of_Z ni); reflexivity.
Qed.

(** X10: when the slice width is not a finite number (the spread of the
    bunch overflows binary64, or a cut is infinite or NaN), with a number of
    slices from 1 to [max_slices], [line_density] does not raise: all bin
    edges but the last are NaN and it returns NaN for every active
    particle. *)
Theorem not_finite_slice_width_gives_nan_weights :
  forall (particles : Particles) (num_slices : Z) (bins : Bins),
    1 <= num_slices <= max_slices ->
    line_density_bins numpy_lib (active_zeta particles) num_slices = Ok bins ->
    F64.is_finite (slice_width bins) = false ->
    Forall (eq F64.nan) (removelast (bin_edges bins))
    /\ line_density num_slices particles
       = (Ok (repeat F64.nan (List.length (filter is_active (rows particles)))),
          particles).
Proof.
  intros particles num_slices bins Hn Hbins Hw.
  destruct (not_finite_width_weights _ _ _ (proj1 Hn) Hbins Hw)
    as [Hnan Hweights].
  split; [exact Hnan |].
  rewrite line_density_weights, <- active_zeta_length.
  destruct (_context particles). cbn [nplike_lib]. now rewrite Hweights.
Qed.

(** Two particles at the largest finite float of either sign: their
    distance overflows. *)
Lemma not_finite_slice_width_gives_nan_weights_witness :
  let huge := S754_finite false 9007199254740991 971 in
  let particles :=
    ensemble [particle_at huge 1; particle_at (SFopp huge) 1] in
  line_density 2 particles = (Ok [F64.nan; F64.nan], particles).
Proof.
  intros huge particles.
  eapply (proj2 (not_finite_slice_width_gives_nan_weights particles 2 _ _ _ _)).
  Unshelve.
  - exact {| z_cut_head := huge; z_cut_tail := SFopp huge;
             slice_width := F64.inf;
             bin_edges := [F64.nan; F64.nan; F64.inf];
             bin_centers := [F64.nan; F64.nan] |}.
  - unfold max_slices. lia.
  - vm_compute. reflexivity.
  - reflexivity.
Defined.

(** [np.max] and [np.min] propagate NaN. *)
Lemma fold_maximum_nan :
  forall l x, x = F64.nan \/ In F64.nan l -> fold_left numpy.maximum l x = F64.nan.
Proof.
  induction l as [| y l IH]; intros x H.
  - destruct H as [-> | []]. reflexivity.
  - cbn [fold_left]. apply IH. destruct H as [-> | [-> | H]].
    + left. destruct y; reflexivity.
    + left. destruct x; reflexivity.
    + now right.
Qed.

Lemma fold_minimum_nan :
  forall l x, x = F64.nan \/ In F64.nan l -> fold_left numpy.minimum l x = F64.nan.
Proof.
  induction l as [| y l IH]; intros x H.
  - destruct H as [-> | []]. reflexivity.
  - cbn [fold_left]. apply IH. destruct H as [-> | [-> | H]].
    + left. destruct y; reflexivity.
    + left. destruct x; reflexivity.
    + now right.
Qed.

(** The distance between the cuts is not finite as soon as one coordinate
    is not. *)
Lemma span_of_not_finite_coordinate :
  forall zeta head tail z,
    numpy.max zeta = Ok head ->
    numpy.min zeta = Ok tail ->
    In z zeta ->
    F64.is_finite z = false ->
    F64.is_finite (head - tail)%f64 = false.
Proof.
  intros zeta head tail z Hmax Hmin Hin Hz.
  destruct z as [| sz | |]; try discriminate Hz.
  - destruct sz.
    + destruct (min_is_minimum _ _ Hmin) as [_ Hlow].
      specialize (Hlow _ Hin).
      destruct tail as [st | st | | st m e]; try (destruct st);
        try discriminate Hlow; destruct head as [| sh | |];
        try reflexivity; destruct sh; reflexivity.
    + destruct (max_is_maximum _ _ Hmax) as [_ Hhigh].
      specialize (Hhigh _ Hin).
      destruct head as [sh | sh | | sh m e]; try (destruct sh);
        try discriminate Hhigh; destruct tail as [| st | |];
        try reflexivity; destruct st; reflexivity.
  - destruct zeta as [| x l]; [contradiction |].
    unfold numpy.max in Hmax. injection Hmax as <-.
    rewrite fold_maximum_nan; [reflexivity |].
    destruct Hin as [-> | Hin]; [now left | now right].
Qed.

(** X11: one active particle whose [zeta] is NaN or an infinity is enough,
    with a number of slices from 1 to [max_slices], for [line_density] to
    return NaN for every active particle; it does not raise. *)
Theorem not_finite_coordinate_gives_nan_weights :
  forall (particles : Particles) (num_slices : Z) (z : f64),
    1 <= num_slices <= max_slices ->
    In z (active_zeta particles) ->
    F64.is_finite z = false ->
    line_density num_slices particles
    = (Ok (repeat F64.nan (List.length (filter is_active (rows particles)))),
       particles).
Proof.
  intros particles num_slices z Hn Hin Hz.
  assert (active_zeta particles <> []) as Hne
    by (intros Hnil; rewrite Hnil in Hin; contradiction).
  destruct (line_density_bins_returns (active_zeta particles) num_slices Hne)
    as [bins [Hbins _]]; [lia |].
  destruct (line_density_bins_inv _ _ _ Hbins)
    as (_ & _ & Hmax & Hmin & Hwidth & _ & _).
  assert (F64.is_finite (slice_width bins) = false) as Hw.
  { rewrite Hwidth. apply div_not_finite.
    now apply (span_of_not_finite_coordinate (active_zeta particles) _ _ z). }
  destruct (not_finite_width_weights _ _ _ (proj1 Hn) Hbins Hw)
    as [_ Hweights].
  rewrite line_density_weights, <- active_zeta_length.
  destruct (_context particles). cbn [nplike_lib]. now rewrite Hweights.
Qed.

Lemma not_finite_coordinate_gives_nan_weights_witness :
  let particles :=
    ensemble [particle_at F64.one 1; particle_at F64.inf 1;
              particle_at F64.lit_2 0; particle_at (F64.of_Z 3) 1] in
  line_density 40 particles
  = (Ok [F64.nan; F64.nan; F64.nan], particles).
Proof.
  intros particles.
  apply (not_finite_coordinate_gives_nan_weights particles 40 F64.inf).
  - unfold max_slices. lia.
  - right. left. reflexivity.
  - reflexivity.
Defined.
